(** * ComfyUI_RSS_Tool: feed link extraction and article batch reports

    A shallow embedding of [__init__.py]: the two nodes
    [RSSFeedParserNode] and [ArticleContentExtractorNode], the Python
    string operations they use, and the third-party collaborators
    (requests, lxml, newspaper, nltk) as interfaces. *)

From Stdlib Require Import NArith ZArith Ascii Lia.
From stdpp Require Import base decidable option list strings pretty gmap.

Local Open Scope N_scope.
Local Set Warnings "-register-all".

(** ** Python [str] values

    A Python string is a sequence of Unicode code points; a code point is
    kept as an [N]. *)
Module Py.

Definition char : Type := N.
Definition pystr : Type := list char.

(** An ASCII literal of the source, as code points. *)
Fixpoint lit (s : string) : pystr :=
  match s with
  | EmptyString => []
  | String a s' => Ascii.N_of_ascii a :: lit s'
  end.

(** [Py_UNICODE_ISSPACE]: the characters [str.strip()] removes. *)
Definition isspace (c : char) : bool :=
  ((9 <=? c) && (c <=? 13)) || ((28 <=? c) && (c <=? 32))
  || (c =? 133) || (c =? 160) || (c =? 5760)
  || ((8192 <=? c) && (c <=? 8202))
  || (c =? 8232) || (c =? 8233) || (c =? 8239) || (c =? 8287)
  || (c =? 12288).

Fixpoint lstrip (s : pystr) : pystr :=
  match s with
  | [] => []
  | c :: s' => if isspace c then lstrip s' else s
  end.

Definition rstrip (s : pystr) : pystr := rev (lstrip (rev s)).

(** [s.strip()] *)
Definition strip (s : pystr) : pystr := rstrip (lstrip s).

(** Truthiness of a string: [if s:]. *)
Definition truthy (s : pystr) : bool :=
  match s with [] => false | _ :: _ => true end.

(** [s.split(sep)] for a one-character separator: [k] separators give
    [k + 1] pieces, empty pieces included. *)
Fixpoint split (sep : char) (s : pystr) : list pystr :=
  match s with
  | [] => [[]]
  | c :: s' =>
      if c =? sep then [] :: split sep s'
      else match split sep s' with
           | [] => [[c]]
           | piece :: pieces => (c :: piece) :: pieces
           end
  end.

(** [sep.join(l)] for a list of strings. *)
Fixpoint join (sep : pystr) (l : list pystr) : pystr :=
  match l with
  | [] => []
  | x :: rest =>
      match rest with
      | [] => x
      | _ :: _ => x ++ sep ++ join sep rest
      end
  end.

(** [s.startswith(p)] *)
Fixpoint startswith (s p : pystr) {struct p} : bool :=
  match p, s with
  | [], _ => true
  | _ :: _, [] => false
  | a :: p', b :: s' => (a =? b) && startswith s' p'
  end.

(** [s.replace(old, new)]: the occurrences of [old] are found from left
    to right and do not overlap.  [skip] counts the characters of a
    matched occurrence that are still to be passed over. *)
Fixpoint replace_from (old new : pystr) (skip : nat) (s : pystr) : pystr :=
  match s with
  | [] => []
  | c :: s' =>
      match skip with
      | S k => replace_from old new k s'
      | O =>
          if startswith s old
          then new ++ replace_from old new (length old - 1) s'
          else c :: replace_from old new 0 s'
      end
  end.

Definition replace (s old new : pystr) : pystr :=
  match old with
  | [] => new ++ flat_map (fun c => c :: new) s
  | _ :: _ => replace_from old new 0 s
  end.

(** [s[:n]] *)
Definition slice_to (n : nat) (s : pystr) : pystr := take n s.

(** [c * n] for a one-character string [c]. *)
Definition repeat_char (c : char) (n : nat) : pystr := replicate n c.

(** [os.path.join(a, b)] on a POSIX host. *)
Definition os_path_join (a b : pystr) : pystr :=
  if startswith b (lit "/") then b
  else match a with
       | [] => b
       | _ :: _ => if bool_decide (last a = Some 47) then a ++ b
                  else a ++ lit "/" ++ b
       end.

End Py.

Import Py.

Definition nl : pystr := [10].

(** ** Exceptions

    An exception is kept as its class and its [str(e)].  Only classes
    derived from [Exception] are modelled: that is what the handlers of
    the source catch. *)
Inductive exc_class : Type :=
  | LookupError | ValueError | TypeError | KeyError | OtherException.

Record exn : Type := Exn { exn_class : exc_class; exn_str : pystr }.

Definition is_LookupError (e : exn) : bool :=
  match exn_class e with LookupError => true | _ => false end.

(** [except Exception] *)
Definition is_Exception (e : exn) : bool := true.

(** ** The world a node runs in *)

Inductive message : Type :=
  | MsgPunktFound | MsgPunktMissing
  | MsgCleared (path : pystr) | MsgNothingToClear | MsgClearFailed (e : pystr).

(** What a run does to the outside, in the order it does it. *)
Inductive event : Type :=
  | EvPathInsert (dir : pystr)
  | EvFind (resource : pystr)
  | EvFetch (package dir : pystr)
  | EvPrint (m : message)
  | EvDownload (url : pystr)
  | EvParse (url : pystr)
  | EvNlp (url : pystr)
  | EvExists (path : pystr)
  | EvRmtree (path : pystr).

Record World (Net : Type) : Type := mkWorld {
  module_dir : pystr;            (* the directory of __file__ *)
  disk : gset pystr;             (* the paths that exist on the local disk *)
  nltk_search_path : list pystr; (* nltk.data.path, shared by the process *)
  net : Net;                     (* everything beyond the process *)
}.
Arguments mkWorld {Net}.
Arguments module_dir {Net}.
Arguments disk {Net}.
Arguments nltk_search_path {Net}.
Arguments net {Net}.

(** ** The collaborators *)

Record article : Type := Article { title : pystr; text : pystr }.

(** newspaper's [Article]: [download()], [parse()], [nlp()]. *)
Class ArticleExtractor (Net : Type) : Type := {
  article_download : pystr -> Net -> (exn + pystr) * Net;
  article_parse : pystr -> exn + article;
  article_nlp : article -> list pystr -> gset pystr -> exn + pystr;
}.

(** The language asset store: nltk's quiet downloader and the cache
    directory on the local disk.  [nltk_fetch package] is [True] when the
    package was fetched; [nltk_leaves package dir] is what else the
    downloader leaves on the disk (the directories it creates, the
    archive, the files of the package); [rmtree_error path] is [None]
    when the removal of a directory succeeds, else the exception it raises
    and the paths of the directory that stay. *)
Class AssetRemote (Net : Type) : Type := {
  nltk_fetch : pystr -> Net -> bool * Net;
  nltk_leaves : pystr -> pystr -> Net -> gset pystr;
  rmtree_error : pystr -> Net -> option (exn * gset pystr);
}.

(** ** XML documents as lxml presents them

    An element has a tag (with its namespace in Clark notation,
    [{uri}local]), attributes, the text before its first child, and its
    child elements.  Comments and processing instructions carry no tag
    that a name test can match and are left out. *)
Module Xml.

Inductive element : Type :=
  Element (tag : pystr) (attrib : list (pystr * pystr))
          (text : option pystr) (children : list element).

Definition tag (e : element) : pystr :=
  match e with Element t _ _ _ => t end.
Definition attrib (e : element) : list (pystr * pystr) :=
  match e with Element _ a _ _ => a end.
Definition text (e : element) : option pystr :=
  match e with Element _ _ x _ => x end.
Definition children (e : element) : list element :=
  match e with Element _ _ _ cs => cs end.

(** The elements below [e], in document order. *)
Fixpoint descendants (e : element) : list element :=
  match e with
  | Element _ _ _ cs => flat_map (fun c => c :: descendants c) cs
  end.

Definition has_tag (name : pystr) (e : element) : bool :=
  bool_decide (tag e = name).

(** [e.get(key)] *)
Fixpoint get (key : pystr) (attrs : list (pystr * pystr)) : option pystr :=
  match attrs with
  | [] => None
  | (k, v) :: rest => if bool_decide (k = key) then Some v else get key rest
  end.

(** [e.find(name)] for a plain tag name: the first child with that tag. *)
Definition find (name : pystr) (e : element) : option element :=
  List.find (has_tag name) (children e).

(** [e.findtext(name)] for a plain tag name: [None] without such a
    child, [''] when the child has no text. *)
Definition findtext (name : pystr) (e : element) : option pystr :=
  match find name e with
  | None => None
  | Some c => Some (default [] (text c))
  end.

(** [e.xpath('.//name')] and [e.findall('.//name')] for a tag name. *)
Definition findall_descendants (name : pystr) (e : element) : list element :=
  List.filter (has_tag name) (descendants e).

End Xml.

(** An HTTP response: the status line, the address, the raw body, and
    the codec [response.text] decodes the body with. *)
Record response : Type := Response {
  status_code : Z;
  reason : pystr;
  url : pystr;
  content : list N;
  encoding : option pystr;
}.

(** requests: one GET with a timeout; transport failures are raised. *)
Class HttpClient (Net : Type) : Type := {
  requests_get : pystr -> Z -> Net -> (exn + response) * Net;
  (** [bytes.decode(codec, errors='replace')]; [None] stands for the
      codec requests guesses. *)
  decode : option pystr -> list N -> pystr;
}.

(** lxml: the parser, and ElementPath's [findtext] for the one path
    expression of the source that is more than a tag name. *)
Class XmlLibrary : Type := {
  etree_parse : pystr -> exn + Xml.element;
  findtext_alternate_href : Xml.element -> exn + option pystr;
}.

(** ** Stage 1: [RSSFeedParserNode] *)
Module RSSFeedParserNode.

Definition atom_ns : pystr := lit "http://www.w3.org/2005/Atom".

(** The literal [<?xml version="1.0" encoding="UTF-8"?>]. *)
Definition xml_declaration : pystr :=
  lit "<?xml version=" ++ [34] ++ lit "1.0" ++ [34] ++ lit " encoding="
  ++ [34] ++ lit "UTF-8" ++ [34] ++ lit "?>".

(** [response.raise_for_status()] *)
Definition raise_for_status (r : response) : exn + unit :=
  let http_error_msg kind :=
    lit (pretty (status_code r)) ++ lit kind ++ reason r
    ++ lit " for url: " ++ url r in
  if ((400 <=? status_code r) && (status_code r <? 500))%Z
  then inl (Exn OtherException (http_error_msg " Client Error: "))
  else if ((500 <=? status_code r) && (status_code r <? 600))%Z
  then inl (Exn OtherException (http_error_msg " Server Error: "))
  else inr tt.

(** [response.text] *)
Definition response_text {Net} {http : HttpClient Net} (r : response) : pystr :=
  decode (encoding r) (content r).

(** The text handed to the XML parser. *)
Definition xml_content {Net} {http : HttpClient Net} (r : response) : pystr :=
  let r := Response (status_code r) (reason r) (url r) (content r)
                    (Some (lit "utf-8")) in
  replace (response_text r) xml_declaration [].

(** [[item.findtext('link') for item in root.xpath('.//item')
      if item.find('link') is not None]] *)
Definition parse_rss (root : Xml.element) : list (option pystr) :=
  map (Xml.findtext (lit "link"))
      (List.filter (fun item => bool_decide (Xml.find (lit "link") item <> None))
                   (Xml.findall_descendants (lit "item") root)).

(** A list comprehension whose element expression may raise. *)
Fixpoint comprehension {A B} (f : A -> exn + B) (l : list A) : exn + list B :=
  match l with
  | [] => inr []
  | x :: rest =>
      match f x with
      | inl e => inl e
      | inr y =>
          match comprehension f rest with
          | inl e => inl e
          | inr ys => inr (y :: ys)
          end
      end
  end.

(** [[entry.findtext('.//atom:link[@rel="alternate"]/@href', namespaces=ns)
      for entry in root.findall('.//atom:entry', ns)]] *)
Definition parse_atom {xml : XmlLibrary} (root : Xml.element)
    : exn + list (option pystr) :=
  comprehension findtext_alternate_href
    (Xml.findall_descendants (lit "{" ++ atom_ns ++ lit "}entry") root).

(** [sep.join(items)] raises [TypeError] at the first item that is not a
    string; [checked_items i items] are the items when all are strings,
    [i] being the index of the first of them. *)
Fixpoint checked_items (i : nat) (items : list (option pystr))
    : exn + list pystr :=
  match items with
  | [] => inr []
  | None :: _ =>
      inl (Exn TypeError
             (lit "sequence item " ++ lit (pretty i)
              ++ lit ": expected str instance, NoneType found"))
  | Some s :: rest =>
      match checked_items (S i) rest with
      | inl e => inl e
      | inr ss => inr (s :: ss)
      end
  end.

Definition str_join (sep : pystr) (items : list (option pystr)) : exn + pystr :=
  match checked_items 0 items with
  | inl e => inl e
  | inr ss => inr (join sep ss)
  end.

Section Node.
Context {Net : Type} {http : HttpClient Net} {xml : XmlLibrary}.

(** The link list of a parsed feed: the dispatch on the root tag. *)
Definition extract_links (root : Xml.element) : exn + list (option pystr) :=
  if bool_decide (Xml.tag root = lit "rss") then inr (parse_rss root)
  else if startswith (Xml.tag root) (lit "{" ++ atom_ns ++ lit "}")
       then parse_atom root
       else inl (Exn ValueError
                   (lit "Unsupported feed format: " ++ Xml.tag root)).

(** What follows the fetch inside the [try]. *)
Definition links_text (r : response) : exn + pystr :=
  match raise_for_status r with
  | inl e => inl e
  | inr _ =>
      match etree_parse (xml_content r) with
      | inl e => inl e
      | inr root =>
          match extract_links root with
          | inl e => inl e
          | inr links => str_join nl links
          end
      end
  end.

(** The body of the [try]. *)
Definition execute_try (feed_url : pystr) (timeout : Z) (n : Net)
    : (exn + pystr) * Net :=
  match requests_get feed_url timeout n with
  | (inl e, n') => (inl e, n')
  | (inr r, n') => (links_text r, n')
  end.

(** [execute]: the one-element tuple it returns is kept as its element. *)
Definition execute (feed_url : pystr) (timeout : Z) (n : Net) : pystr * Net :=
  match execute_try feed_url timeout n with
  | (inr links, n') => (links, n')
  | (inl e, n') => (lit "Error parsing feed: " ++ exn_str e, n')
  end.

End Node.
End RSSFeedParserNode.

(** ** Stage 2: [ArticleContentExtractorNode] *)
Module ArticleContentExtractorNode.
Section Node.
Context {Net : Type} {extractor : ArticleExtractor Net}
        {remote : AssetRemote Net}.

(** A computation changes the world, reports its events and ends in a
    value or in an exception. *)
Definition M (A : Type) : Type :=
  World Net -> (exn + A) * World Net * list event.

Definition ret {A} (a : A) : M A := fun w => (inr a, w, []).

Definition raise {A} (e : exn) : M A := fun w => (inl e, w, []).

Definition bind {A B} (m : M A) (f : A -> M B) : M B := fun w =>
  match m w with
  | (inl e, w1, t1) => (inl e, w1, t1)
  | (inr a, w1, t1) =>
      match f a w1 with
      | (r, w2, t2) => (r, w2, t1 ++ t2)
      end
  end.

(** [try: body / except <class> as e: handler e] *)
Definition try_except {A} (body : M A) (caught : exn -> bool)
    (handler : exn -> M A) : M A := fun w =>
  match body w with
  | (inl e, w1, t1) =>
      if caught e
      then match handler e w1 with
           | (r, w2, t2) => (r, w2, t1 ++ t2)
           end
      else (inl e, w1, t1)
  | (inr a, w1, t1) => (inr a, w1, t1)
  end.

Definition emit (ev : event) : M unit := fun w => (inr tt, w, [ev]).

Definition print (m : message) : M unit := emit (EvPrint m).

Notation "x <- m ;; k" := (bind m (fun x => k))
  (at level 100, m at next level, right associativity).
Notation "m ;;; k" := (bind m (fun _ => k))
  (at level 100, right associativity).

(** [nltk.data.path.insert(0, dir)] *)
Definition nltk_path_insert (dir : pystr) : M unit := fun w =>
  (inr tt,
   mkWorld (module_dir w) (disk w) (dir :: nltk_search_path w) (net w),
   [EvPathInsert dir]).

(** [nltk.data.find(resource)]: the resource is looked up under every
    directory of the search path; [LookupError] when none has it. *)
Definition nltk_data_find (resource : pystr) : M unit := fun w =>
  if existsb (fun d => bool_decide (os_path_join d resource ∈ disk w))
             (nltk_search_path w)
  then (inr tt, w, [EvFind resource])
  else (inl (Exn LookupError (lit "Resource not found: " ++ resource)), w,
        [EvFind resource]).

(** [nltk.download(package, download_dir=dir, quiet=True)]: a tokenizer
    package that was fetched is unpacked under [dir/tokenizers]; whatever
    else the downloader writes stays on the disk, fetched or not.  The
    quiet downloader reports a failed fetch by its result and does not
    raise. *)
Definition nltk_download (package dir : pystr) : M bool := fun w =>
  match nltk_fetch package (net w) with
  | (ok, n') =>
      let installed := os_path_join dir (lit "tokenizers/" ++ package) in
      let written := nltk_leaves package dir (net w) ∪ disk w in
      (inr ok,
       mkWorld (module_dir w)
               (if ok then {[ installed ]} ∪ written else written)
               (nltk_search_path w) n',
       [EvFetch package dir])
  end.

(** [article = Article(link); article.download()] *)
Definition download (link : pystr) : M pystr := fun w =>
  match article_download link (net w) with
  | (r, n') =>
      (r, mkWorld (module_dir w) (disk w) (nltk_search_path w) n',
       [EvDownload link])
  end.

(** [article.parse()] *)
Definition parse (link html : pystr) : M article := fun w =>
  (article_parse html, w, [EvParse link]).

(** [article.nlp()], which leaves [article.summary] *)
Definition nlp (link : pystr) (a : article) : M pystr := fun w =>
  (article_nlp a (nltk_search_path w) (disk w), w, [EvNlp link]).

(** [os.path.exists(path)] *)
Definition os_path_exists (path : pystr) : M bool := fun w =>
  (inr (bool_decide (path ∈ disk w)), w, [EvExists path]).

(** [shutil.rmtree(path)]: when it succeeds the directory and all below
    it are gone; when it raises, some of them stay. *)
Definition shutil_rmtree (path : pystr) : M unit := fun w =>
  match rmtree_error path (net w) with
  | None =>
      (inr tt,
       mkWorld (module_dir w)
               (filter (fun p => p ≠ path
                                 ∧ startswith p (path ++ lit "/") = false)
                       (disk w))
               (nltk_search_path w) (net w),
       [EvRmtree path])
  | Some (e, kept) =>
      (inl e,
       mkWorld (module_dir w)
               (filter (fun p => (p ≠ path
                                  ∧ startswith p (path ++ lit "/") = false)
                                 ∨ p ∈ kept)
                       (disk w))
               (nltk_search_path w) (net w),
       [EvRmtree path])
  end.

Definition separator : pystr := repeat_char 45 50 ++ nl.

(** The f-strings of the batch loop. *)
Definition url_line (link : pystr) : pystr := lit "URL: " ++ link ++ nl.
Definition title_line (a : article) : pystr := lit "Title: " ++ title a ++ nl.
Definition summary_line (summary : pystr) : pystr :=
  lit "Summary: " ++ summary ++ nl.
Definition text_line (a : article) : pystr :=
  lit "Text: " ++ slice_to 500 (text a) ++ lit "..." ++ nl.

(** The body of the [try] of the batch loop, for one link. *)
Definition process_link (extract_title extract_summary extract_text : bool)
    (link : pystr) : M pystr :=
  html <- download link ;;
  a <- parse link html ;;
  let content := url_line link in
  let content := if extract_title then content ++ title_line a else content in
  content <-
    (if extract_summary
     then summary <- nlp link a ;; ret (content ++ summary_line summary)
     else ret content) ;;
  let content := if extract_text then content ++ text_line a else content in
  ret (content ++ separator).

(** The [except Exception as e] of the batch loop. *)
Definition error_block (link : pystr) (e : exn) : pystr :=
  lit "Error processing " ++ link ++ lit ": " ++ exn_str e ++ nl ++ separator.

(** [for link in links: try: ... results.append(content)
    except Exception as e: results.append(...)] *)
Fixpoint for_links (extract_title extract_summary extract_text : bool)
    (links : list pystr) (results : list pystr) : M (list pystr) :=
  match links with
  | [] => ret results
  | link :: rest =>
      block <- try_except
                 (process_link extract_title extract_summary extract_text link)
                 is_Exception
                 (fun e => ret (error_block link e)) ;;
      for_links extract_title extract_summary extract_text rest
                (results ++ [block])
  end.

(** The check of the tokenizer before the loop. *)
Definition ensure_punkt (nltk_data_path : pystr) : M unit :=
  try_except
    (nltk_data_find (lit "tokenizers/punkt") ;;; print MsgPunktFound)
    is_LookupError
    (fun _ =>
       print MsgPunktMissing ;;;
       _ <- nltk_download (lit "punkt") nltk_data_path ;;
       ret tt).

(** The [if clear_nltk_data:] block after the loop. *)
Definition clear_punkt (nltk_data_path : pystr) : M unit :=
  try_except
    (let punkt_path :=
       os_path_join (os_path_join nltk_data_path (lit "tokenizers"))
                    (lit "punkt") in
     there <- os_path_exists punkt_path ;;
     if there : bool
     then shutil_rmtree punkt_path ;;; print (MsgCleared punkt_path)
     else print MsgNothingToClear)
    is_Exception
    (fun e => print (MsgClearFailed (exn_str e))).

(** [[link.strip() for link in feed_links.split('\n') if link.strip()]] *)
Definition links_of (feed_links : pystr) : list pystr :=
  map strip (List.filter (fun link => truthy (strip link)) (split 10 feed_links)).

Definition execute (feed_links : pystr)
    (extract_title extract_summary extract_text clear_nltk_data : bool)
    : M pystr := fun w =>
  (let nltk_data_path := os_path_join (module_dir w) (lit "nltk_data") in
   nltk_path_insert nltk_data_path ;;;
   ensure_punkt nltk_data_path ;;;
   let links := links_of feed_links in
   results <- for_links extract_title extract_summary extract_text links [] ;;
   (if clear_nltk_data then clear_punkt nltk_data_path else ret tt) ;;;
   ret (join nl results)) w.

End Node.
End ArticleContentExtractorNode.

(** ** Vocabulary of the specification *)
Module Spec.

(** A line is blank when it has nothing but whitespace. *)
Definition nonblank (line : pystr) : bool :=
  existsb (fun c => negb (isspace c)) line.

(** The non-blank lines of a text, trimmed, in the order of the text. *)
Definition nonblank_lines (s : pystr) : list pystr :=
  map strip (List.filter nonblank (split 10 s)).

(** The separator line: fifty dashes. *)
Definition dashes : pystr := replicate 50 45.

(** The fields of a successful result. *)
Inductive field_kind : Type := KUrl | KTitle | KSummary | KText.

Record field : Type := Field { kind : field_kind; value : pystr }.

Definition label (k : field_kind) : pystr :=
  match k with
  | KUrl => lit "URL: "
  | KTitle => lit "Title: "
  | KSummary => lit "Summary: "
  | KText => lit "Text: "
  end.

Definition render (f : field) : pystr := label (kind f) ++ value f ++ nl.

(** The kinds a configuration asks for, in the order of the report. *)
Definition wanted (extract_title extract_summary extract_text : bool)
    : list field_kind :=
  KUrl :: (if extract_title then [KTitle] else [])
       ++ (if extract_summary then [KSummary] else [])
       ++ (if extract_text then [KText] else []).

(** The block of a link whose processing succeeded. *)
Definition success_block (extract_title extract_summary extract_text : bool)
    (link : pystr) (a : article) (summary : pystr) : pystr :=
  ArticleContentExtractorNode.url_line link
  ++ (if extract_title then ArticleContentExtractorNode.title_line a else [])
  ++ (if extract_summary
      then ArticleContentExtractorNode.summary_line summary else [])
  ++ (if extract_text then ArticleContentExtractorNode.text_line a else [])
  ++ dashes ++ nl.

(** The block of a link whose processing failed with message [msg]. *)
Definition failure_block (link msg : pystr) : pystr :=
  lit "Error processing " ++ link ++ lit ": " ++ msg ++ nl ++ dashes ++ nl.

(** [b] is the result block of [link]. *)
Definition block_of (extract_title extract_summary extract_text : bool)
    (link b : pystr) : Prop :=
  (exists msg, b = failure_block link msg)
  \/ (exists a summary,
        b = success_block extract_title extract_summary extract_text
              link a summary).

(** The fields of the block of a link that was processed: [a] is the
    parsed article, [summary] what the summarization pass left. *)
Definition fields_of (extract_title extract_summary extract_text : bool)
    (link : pystr) (a : article) (summary : pystr) : list field :=
  Field KUrl link
  :: (if extract_title then [Field KTitle (title a)] else [])
  ++ (if extract_summary then [Field KSummary summary] else [])
  ++ (if extract_text
      then [Field KText (take 500 (text a) ++ lit "...")] else []).

(** The block that stands for the outcome [r] of processing [link]. *)
Definition outcome_block (link : pystr) (r : exn + pystr) : pystr :=
  match r with
  | inl e => failure_block link (exn_str e)
  | inr content => content
  end.

(** [batch w links blocks w']: processing [links] one after the other
    from the world [w] leaves [blocks] and the world [w']; every link is
    processed in the world its predecessor left, whatever the outcome of
    the predecessor. *)
Inductive batch {Net : Type} {extractor : ArticleExtractor Net}
    (extract_title extract_summary extract_text : bool)
    : World Net -> list pystr -> list pystr -> World Net -> Prop :=
  | batch_nil w :
      batch extract_title extract_summary extract_text w [] [] w
  | batch_cons w link r w1 tr rest blocks w2 :
      ArticleContentExtractorNode.process_link
        extract_title extract_summary extract_text link w = (r, w1, tr) ->
      batch extract_title extract_summary extract_text w1 rest blocks w2 ->
      batch extract_title extract_summary extract_text w
            (link :: rest) (outcome_block link r :: blocks) w2.

(** Events by what they touch. *)
Definition downloads (tr : list event) : list pystr :=
  omap (fun ev => match ev with EvDownload u => Some u | _ => None end) tr.

Definition is_find (ev : event) : bool :=
  match ev with EvFind _ => true | _ => false end.

Definition is_fetch (ev : event) : bool :=
  match ev with EvFetch _ _ => true | _ => false end.

Definition is_nlp (ev : event) : bool :=
  match ev with EvNlp _ => true | _ => false end.

Definition is_link_event (ev : event) : bool :=
  match ev with
  | EvDownload _ | EvParse _ | EvNlp _ => true
  | _ => false
  end.

(** An event of the clean-up: neither the check nor a link. *)
Definition is_cleanup_event (ev : event) : bool :=
  negb (is_find ev || is_fetch ev || is_link_event ev).

(** The resource name of the sentence tokenizer. *)
Definition punkt : pystr := lit "tokenizers/punkt".

(** The tokenizer is found on the search path of [w]. *)
Definition punkt_present {Net} (w : World Net) : bool :=
  existsb (fun d => bool_decide (os_path_join d punkt ∈ disk w))
          (nltk_search_path w).

(** The world after [nltk.download('punkt', download_dir=dir)]. *)
Definition after_download {Net} {remote : AssetRemote Net}
    (dir : pystr) (w : World Net) : World Net :=
  mkWorld (module_dir w)
          (if fst (nltk_fetch (lit "punkt") (net w))
           then {[ os_path_join dir (lit "tokenizers/punkt") ]}
                ∪ (nltk_leaves (lit "punkt") dir (net w) ∪ disk w)
           else nltk_leaves (lit "punkt") dir (net w) ∪ disk w)
          (nltk_search_path w)
          (snd (nltk_fetch (lit "punkt") (net w))).

(** The events a tokenizer check can leave. *)
Definition check_events (dir : pystr) (check : list event) : Prop :=
  check = [EvFind punkt; EvPrint MsgPunktFound]
  \/ check = [EvFind punkt; EvPrint MsgPunktMissing; EvFetch (lit "punkt") dir].

(** RSS: every [item] anywhere below an element, in document order. *)
Fixpoint items_of (e : Xml.element) : list Xml.element :=
  match e with
  | Xml.Element _ _ _ cs =>
      flat_map (fun c =>
                  (if Xml.has_tag (lit "item") c then [c] else [])
                  ++ items_of c) cs
  end.

(** The text of the first [link] child, [''] when it has no text. *)
Definition link_text (item : Xml.element) : option pystr :=
  match List.filter (Xml.has_tag (lit "link")) (Xml.children item) with
  | [] => None
  | l :: _ => Some (default [] (Xml.text l))
  end.

(** The [link] texts of the items that have a [link] child. *)
Definition rss_links (root : Xml.element) : list pystr :=
  omap link_text (items_of root).

(** The same list, without the empty texts. *)
Definition rss_nonempty_links (root : Xml.element) : list pystr :=
  List.filter truthy (rss_links root).

(** Atom: the [href] of the first [link rel="alternate"] below an entry. *)
Definition atom_tag (name : string) : pystr :=
  lit "{" ++ RSSFeedParserNode.atom_ns ++ lit "}" ++ lit name.

Definition is_alternate_link (e : Xml.element) : bool :=
  Xml.has_tag (atom_tag "link") e
  && bool_decide (Xml.get (lit "rel") (Xml.attrib e) = Some (lit "alternate")).

Definition alternate_href (entry : Xml.element) : option pystr :=
  match List.filter is_alternate_link (Xml.descendants entry) with
  | [] => None
  | l :: _ => Xml.get (lit "href") (Xml.attrib l)
  end.

(** The [href]s of the entries, entries without such a link skipped. *)
Definition atom_links (root : Xml.element) : list pystr :=
  omap alternate_href (Xml.findall_descendants (atom_tag "entry") root).

(** [s.find(p)]: where the first occurrence of [p] in [s] starts. *)
Fixpoint index_of (p s : pystr) : option nat :=
  if startswith s p then Some 0%nat
  else match s with
       | [] => None
       | _ :: s' => S <$> index_of p s'
       end.

(** The exceptions of the [try] of stage 1, by the step that raises:
    [stage1_fails feed_url timeout n e n'] when the run from the network
    state [n] raises [e] and leaves [n']. *)
Inductive stage1_fails {Net : Type} {http : HttpClient Net}
    {xml : XmlLibrary} (feed_url : pystr) (timeout : Z) (n : Net)
    : exn -> Net -> Prop :=
  | fetch_fails e n' :
      requests_get feed_url timeout n = (inl e, n') ->
      stage1_fails feed_url timeout n e n'
  | status_fails r e n' :
      requests_get feed_url timeout n = (inr r, n') ->
      RSSFeedParserNode.raise_for_status r = inl e ->
      stage1_fails feed_url timeout n e n'
  | xml_malformed r e n' :
      requests_get feed_url timeout n = (inr r, n') ->
      RSSFeedParserNode.raise_for_status r = inr tt ->
      etree_parse (RSSFeedParserNode.xml_content r) = inl e ->
      stage1_fails feed_url timeout n e n'
  | root_unsupported r root n' :
      requests_get feed_url timeout n = (inr r, n') ->
      RSSFeedParserNode.raise_for_status r = inr tt ->
      etree_parse (RSSFeedParserNode.xml_content r) = inr root ->
      Xml.tag root <> lit "rss" ->
      startswith (Xml.tag root) (lit "{" ++ RSSFeedParserNode.atom_ns ++ lit "}")
      = false ->
      stage1_fails feed_url timeout n
        (Exn ValueError (lit "Unsupported feed format: " ++ Xml.tag root)) n'
  | atom_path_fails r root e n' :
      requests_get feed_url timeout n = (inr r, n') ->
      RSSFeedParserNode.raise_for_status r = inr tt ->
      etree_parse (RSSFeedParserNode.xml_content r) = inr root ->
      Xml.tag root <> lit "rss" ->
      startswith (Xml.tag root) (lit "{" ++ RSSFeedParserNode.atom_ns ++ lit "}")
      = true ->
      RSSFeedParserNode.parse_atom root = inl e ->
      stage1_fails feed_url timeout n e n'
  | join_fails r root links e n' :
      requests_get feed_url timeout n = (inr r, n') ->
      RSSFeedParserNode.raise_for_status r = inr tt ->
      etree_parse (RSSFeedParserNode.xml_content r) = inr root ->
      RSSFeedParserNode.extract_links root = inr links ->
      RSSFeedParserNode.str_join nl links = inl e ->
      stage1_fails feed_url timeout n e n'.

End Spec.

(** ** Readings of the specification that the code does not follow

    Each is refuted below and replaced by what the code does. *)
Module Claimed.

(** RSS: the link list has no empty text. *)
Definition rss_links_nonempty : Prop :=
  forall root : Xml.element,
    Xml.tag root = lit "rss" ->
    RSSFeedParserNode.parse_rss root
    = map Some (Spec.rss_nonempty_links root).

(** The tokenizer is checked or fetched only when summaries are asked for. *)
Definition asset_check_gated : Prop :=
  forall (Net : Type) (extractor : ArticleExtractor Net)
         (remote : AssetRemote Net)
         (feed_links : pystr) (et es ex clear : bool) (w : World Net)
         (ev : event),
    In ev (snd (ArticleContentExtractorNode.execute
                  feed_links et es ex clear w)) ->
    (Spec.is_find ev || Spec.is_fetch ev) = true ->
    es = true.

(** Only a declaration at the start of the text is removed. *)
Definition only_leading_declaration_removed : Prop :=
  forall (Net : Type) (http : HttpClient Net) (r : response),
    let t := decode (Some (lit "utf-8")) (content r) in
    RSSFeedParserNode.xml_content r
    = if startswith t RSSFeedParserNode.xml_declaration
      then drop (length RSSFeedParserNode.xml_declaration) t
      else t.

(** The excerpt of the Text field is never the whole article text. *)
Definition text_never_whole : Prop :=
  forall (a : article) (excerpt : pystr),
    ArticleContentExtractorNode.text_line a
    = lit "Text: " ++ excerpt ++ lit "..." ++ nl ->
    (length excerpt <= 500)%nat /\ excerpt <> text a.

End Claimed.

(** ** A small concrete world

    Collaborators with fixed answers, to run the nodes on. *)
Module Demo.

(** The network state: the number of requests made so far. *)
Definition long_text : pystr := replicate 600 120.

Definition extractor : ArticleExtractor nat := {|
  article_download url n :=
    (if bool_decide (url = lit "http://down.example/a")
     then inl (Exn OtherException (lit "unreachable"))
     else inr (lit "<html>" ++ url), S n);
  article_parse html :=
    inr (Article (lit "A title")
           (if bool_decide (html = lit "<html>http://news.example/long")
            then long_text else lit "Short body"));
  article_nlp a path d := inr (lit "A summary");
|}.

Definition remote : AssetRemote nat := {|
  nltk_fetch package n := (true, S n);
  nltk_leaves package dir n :=
    {[ dir; dir ++ lit "/tokenizers";
       dir ++ lit "/tokenizers/" ++ package ++ lit ".zip";
       dir ++ lit "/tokenizers/" ++ package ++ lit "/english.pickle" ]};
  rmtree_error path n := None;
|}.

Definition node_dir : pystr := lit "/opt/ComfyUI/custom_nodes/ComfyUI_RSS_Tool".

(** Nothing cached yet. *)
Definition fresh : World nat := mkWorld node_dir ∅ [] 0%nat.

(** The tokenizer is in the node's own cache, which is on the path. *)
Definition cached : World nat :=
  mkWorld node_dir
          {[ node_dir ++ lit "/nltk_data/tokenizers/punkt" ]}
          [node_dir ++ lit "/nltk_data"] 0%nat.

(** Three feeds and a host that is down. *)
Definition rss_body : pystr :=
  lit "<rss><channel><item><link>http://news.example/1</link></item>"
  ++ lit "<item><title>no link</title></item><item><link/></item>"
  ++ lit "</channel></rss>".

Definition rss_text : pystr := RSSFeedParserNode.xml_declaration ++ rss_body.

Definition rss_root : Xml.element :=
  Xml.Element (lit "rss") [] None
    [Xml.Element (lit "channel") [] None
       [Xml.Element (lit "item") [] None
          [Xml.Element (lit "link") [] (Some (lit "http://news.example/1")) []];
        Xml.Element (lit "item") [] None
          [Xml.Element (lit "title") [] (Some (lit "no link")) []];
        Xml.Element (lit "item") [] None
          [Xml.Element (lit "link") [] None []]]].

Definition atom_text : pystr :=
  lit "<feed xmlns='http://www.w3.org/2005/Atom'><entry><title>t</title>"
  ++ lit "</entry></feed>".

Definition atom_root : Xml.element :=
  Xml.Element (Spec.atom_tag "feed") [] None
    [Xml.Element (Spec.atom_tag "entry") [] None
       [Xml.Element (Spec.atom_tag "title") [] (Some (lit "t")) []]].

Definition html_text : pystr := lit "<html><body/></html>".

Definition html_root : Xml.element :=
  Xml.Element (lit "html") [] None [Xml.Element (lit "body") [] None []].

(** A declaration inside a comment of the document. *)
Definition commented_text : pystr :=
  lit "<rss><!--" ++ RSSFeedParserNode.xml_declaration ++ lit "--></rss>".

Definition body_of (url : pystr) : list N :=
  if bool_decide (url = lit "http://feeds.example/atom") then atom_text
  else if bool_decide (url = lit "http://feeds.example/html") then html_text
  else if bool_decide (url = lit "http://feeds.example/commented")
       then commented_text
       else rss_text.

Definition http : HttpClient nat := {|
  requests_get url timeout n :=
    (if bool_decide (url = lit "http://down.example/feed")
     then inl (Exn OtherException (lit "connection refused"))
     else if bool_decide (url = lit "http://feeds.example/gone")
     then inr (Response 404 (lit "Not Found") url [] None)
     else inr (Response 200 (lit "OK") url (body_of url) None), S n);
  decode codec bytes := bytes;
|}.

Definition parse_table (s : pystr) : exn + Xml.element :=
  if bool_decide (s = rss_body) then inr rss_root
  else if bool_decide (s = atom_text) then inr atom_root
  else if bool_decide (s = html_text) then inr html_root
  else inl (Exn OtherException (lit "XMLSyntaxError")).

(** ElementPath as lxml has it: a path is compiled step by step from a
    table of step kinds, and the table has no entry for [@]. *)
Definition lxml : XmlLibrary := {|
  etree_parse := parse_table;
  findtext_alternate_href entry := inl (Exn KeyError (lit "'@'"));
|}.

(** An ElementPath that would read the attribute. *)
Definition lenient : XmlLibrary := {|
  etree_parse := parse_table;
  findtext_alternate_href entry := inr (Spec.alternate_href entry);
|}.

End Demo.

(** ** Vocabulary of the further properties *)
Module More.

(** The text has no line break. *)
Definition no_newline (s : pystr) : bool :=
  forallb (fun c => negb (c =? 10)) s.

(** The text is not empty and neither starts nor ends with whitespace. *)
Definition trimmed (s : pystr) : bool :=
  match s with [] => false | c :: _ => negb (isspace c) end
  && match rev s with [] => false | c :: _ => negb (isspace c) end.

(** The cache directory of the node, and the tokenizer directory in it
    as the clean-up names it. *)
Definition nltk_data_dir {Net} (w : World Net) : pystr :=
  os_path_join (module_dir w) (lit "nltk_data").

Definition punkt_dir {Net} (w : World Net) : pystr :=
  os_path_join (os_path_join (nltk_data_dir w) (lit "tokenizers"))
               (lit "punkt").

(** [p] is [dir] or a path below it. *)
Definition below (dir p : pystr) : bool :=
  bool_decide (p = dir) || startswith p (dir ++ lit "/").

(** Two worlds that differ at most in the state of the network. *)
Definition same_host {Net} (w w' : World Net) : Prop :=
  module_dir w' = module_dir w
  /\ disk w' = disk w
  /\ nltk_search_path w' = nltk_search_path w.

End More.

(** ** More of the concrete world: feeds, an extractor and hosts *)
Module MoreDemo.

Definition empty_rss_root : Xml.element :=
  Xml.Element (lit "rss") [] None [Xml.Element (lit "channel") [] None []].

Definition linked_atom_root : Xml.element :=
  Xml.Element (Spec.atom_tag "feed") [] None
    [Xml.Element (Spec.atom_tag "entry") [] None
       [Xml.Element (Spec.atom_tag "link")
          [(lit "rel", lit "alternate"); (lit "href", lit "http://news.example/a")]
          None []]].

(** A parser that answers [root], with an ElementPath that reads the
    attribute. *)
Definition library (root : Xml.element) : XmlLibrary := {|
  etree_parse s := inr root;
  findtext_alternate_href entry := inr (Spec.alternate_href entry);
|}.

Definition ok_response (body : pystr) : response :=
  Response 200 (lit "OK") (lit "http://feeds.example/") body None.

(** An extractor that behaves as newspaper does: [download()] returns
    also when the page could not be fetched and [parse()] raises then;
    [nlp()] raises the several lines of nltk's [LookupError] when the
    tokenizer is not on the search path. *)
Definition newspaper : ArticleExtractor nat := {|
  article_download url n :=
    (inr (if bool_decide (url = lit "http://down.example/a")
          then [] else lit "<html>" ++ url), S n);
  article_parse html :=
    match html with
    | [] => inl (Exn OtherException (lit "Article `download()` failed"))
    | _ :: _ => inr (Article (lit "A title") (lit "Short body"))
    end;
  article_nlp a path d :=
    if existsb (fun dir => bool_decide (os_path_join dir Spec.punkt ∈ d)) path
    then inr (lit "A summary")
    else inl (Exn LookupError
                (lit "Resource punkt not found." ++ [10]
                 ++ lit "Please use the NLTK Downloader to obtain the resource"));
|}.

(** An Atom feed whose entry has its alternate link, the server that
    answers it, and a parser that answers [root] with lxml's
    ElementPath, which has no [@] step. *)
Definition linked_atom_text : pystr :=
  lit "<feed xmlns='http://www.w3.org/2005/Atom'><entry>"
  ++ lit "<link rel='alternate' href='http://news.example/a'/>"
  ++ lit "</entry></feed>".

Definition served (body : pystr) : HttpClient nat := {|
  requests_get url timeout n :=
    (inr (Response 200 (lit "OK") url body None), S n);
  decode codec bytes := bytes;
|}.

Definition lxml_of (root : Xml.element) : XmlLibrary := {|
  etree_parse s := inr root;
  findtext_alternate_href entry := inl (Exn KeyError (lit "'@'"));
|}.

(** A disk with the tokenizer in the node's cache and a file of the
    user's. *)
Definition stocked : World nat :=
  mkWorld Demo.node_dir
          {[ Demo.node_dir ++ lit "/nltk_data/tokenizers/punkt";
             Demo.node_dir ++ lit "/nltk_data/tokenizers/punkt/english.pickle";
             lit "/home/user/notes.txt" ]}
          [] 0%nat.

(** A host without network on which the tokenizer directory cannot be
    removed: [rmtree] raises and the directory stays. *)
Definition locked : AssetRemote nat := {|
  nltk_fetch package n := (false, S n);
  nltk_leaves package dir n := ∅;
  rmtree_error path n :=
    Some (Exn OtherException (lit "[Errno 13] Permission denied"), {[ path ]});
|}.

End MoreDemo.

(** ** The layout of texts, in its own words

    The line feed is written as the character 10 throughout. *)
Module Layout.

(** Texts put one per line: a line feed between two neighbours. *)
Definition lines_text (texts : list pystr) : pystr :=
  match texts with
  | [] => []
  | t :: ts => t ++ flat_map (fun x => 10 :: x) ts
  end.

(** [link] is [line] without the whitespace around it. *)
Definition trim_of (line link : pystr) : Prop :=
  exists before after,
    line = before ++ link ++ after
    /\ forallb isspace before = true
    /\ forallb isspace after = true
    /\ More.trimmed link = true.

(** The block of a link whose processing raised with the text [msg]. *)
Definition error_text (link msg : pystr) : pystr :=
  lit "Error processing " ++ link ++ lit ": " ++ msg
  ++ 10 :: Spec.dashes ++ [10].

(** [processed w links blocks w']: the links are processed one after
    the other from the world [w]; a link whose processing returns gives
    what it returned, a link whose processing raises gives its error
    text, and the next link goes on from the world either left. *)
Inductive processed {Net : Type} {extractor : ArticleExtractor Net}
    (extract_title extract_summary extract_text : bool)
    : World Net -> list pystr -> list pystr -> World Net -> Prop :=
  | processed_nil w :
      processed extract_title extract_summary extract_text w [] [] w
  | processed_ok w link content w1 tr rest blocks w2 :
      ArticleContentExtractorNode.process_link
        extract_title extract_summary extract_text link w
      = (inr content, w1, tr) ->
      processed extract_title extract_summary extract_text w1 rest blocks w2 ->
      processed extract_title extract_summary extract_text w
                (link :: rest) (content :: blocks) w2
  | processed_raised w link e w1 tr rest blocks w2 :
      ArticleContentExtractorNode.process_link
        extract_title extract_summary extract_text link w
      = (inl e, w1, tr) ->
      processed extract_title extract_summary extract_text w1 rest blocks w2 ->
      processed extract_title extract_summary extract_text w
                (link :: rest) (error_text link (exn_str e) :: blocks) w2.

(** The reading of the specification that the block of a failed link
    is one line before the separator. *)
Definition error_block_one_line : Prop :=
  forall (Net : Type) (extractor : ArticleExtractor Net)
         (et es ex : bool) (link : pystr) (w : World Net)
         (e : exn) (w' : World Net) (tr : list event),
    ArticleContentExtractorNode.process_link et es ex link w = (inl e, w', tr) ->
    exists line,
      More.no_newline line = true
      /\ ArticleContentExtractorNode.error_block link e
         = line ++ 10 :: Spec.dashes ++ [10].

(** The clean-up says that the removal failed. *)
Definition is_clear_failure (ev : event) : bool :=
  match ev with
  | EvPrint (MsgClearFailed _) => true
  | _ => false
  end.

End Layout.

(** * Properties *)

(** Two texts that differ only in how their pieces are grouped. *)
Ltac same_text :=
  unfold Spec.success_block, Spec.failure_block, Spec.fields_of,
    Spec.render, Spec.label, slice_to,
    ArticleContentExtractorNode.url_line,
    ArticleContentExtractorNode.title_line,
    ArticleContentExtractorNode.summary_line,
    ArticleContentExtractorNode.text_line,
    ArticleContentExtractorNode.separator, Spec.dashes, repeat_char, nl;
  repeat (simpl; rewrite <- ?app_assoc); reflexivity.

Ltac run_link w link :=
  unfold ArticleContentExtractorNode.process_link,
    ArticleContentExtractorNode.try_except, ArticleContentExtractorNode.bind,
    ArticleContentExtractorNode.download, ArticleContentExtractorNode.parse,
    ArticleContentExtractorNode.nlp, ArticleContentExtractorNode.ret;
  destruct (article_download link (net w)) as [[e|html] n'];
  [|destruct (article_parse html) as [e|a] eqn:Hparse].

(** ** Python strings *)
Section PyFacts.

Lemma lstrip_nil (s : pystr) : lstrip s = [] <-> forallb isspace s = true.
Proof.
  induction s as [|c s IH]; simpl; [tauto|].
  destruct (isspace c); simpl; [exact IH|].
  split; discriminate.
Qed.

Lemma nonblank_forallb (s : pystr) :
  Spec.nonblank s = negb (forallb isspace s).
Proof.
  unfold Spec.nonblank.
  induction s as [|c s IH]; simpl; [reflexivity|].
  rewrite IH. destruct (isspace c); reflexivity.
Qed.

Lemma lstrip_blank (s : pystr) : Spec.nonblank s = false -> lstrip s = [].
Proof.
  rewrite nonblank_forallb. intros H. apply lstrip_nil.
  destruct (forallb isspace s); [reflexivity|discriminate].
Qed.

(** What [lstrip] leaves starts with a character that is not whitespace. *)
Lemma lstrip_nonblank (s : pystr) :
  Spec.nonblank s = true ->
  exists c s', lstrip s = c :: s' /\ isspace c = false.
Proof.
  unfold Spec.nonblank.
  induction s as [|c s IH]; simpl; [discriminate|].
  destruct (isspace c) eqn:Hc; simpl; [exact IH|].
  intros _. exists c, s. split; [reflexivity|exact Hc].
Qed.

Lemma nonblank_In (s : pystr) (c : char) :
  In c s -> isspace c = false -> Spec.nonblank s = true.
Proof.
  intros Hin Hc. unfold Spec.nonblank. apply existsb_exists.
  exists c. rewrite Hc. split; [assumption|reflexivity].
Qed.

(** [if link.strip()] keeps exactly the lines that are not blank. *)
Lemma strip_truthy (s : pystr) : truthy (strip s) = Spec.nonblank s.
Proof.
  unfold strip, rstrip.
  destruct (Spec.nonblank s) eqn:Hs.
  - destruct (lstrip_nonblank s Hs) as (c & s' & -> & Hc).
    destruct (lstrip_nonblank (rev (c :: s'))) as (d & t & -> & _).
    + apply nonblank_In with c; [|exact Hc].
      apply in_rev. rewrite rev_involutive. left; reflexivity.
    + simpl. destruct (rev t ++ [d]) eqn:E; [|reflexivity].
      destruct (rev t); discriminate.
  - rewrite (lstrip_blank s Hs). reflexivity.
Qed.

Lemma join_cons_cons (sep x y : pystr) (l : list pystr) :
  join sep (x :: y :: l) = x ++ sep ++ join sep (y :: l).
Proof. reflexivity. Qed.

Lemma join_cons (sep x : pystr) (l : list pystr) :
  join sep (x :: l) = x ++ flat_map (fun b => sep ++ b) l.
Proof.
  revert x. induction l as [|y l IH]; intros x.
  - simpl. rewrite app_nil_r. reflexivity.
  - rewrite join_cons_cons, IH. simpl. rewrite <- !app_assoc. reflexivity.
Qed.

Lemma join_app_cons (sep x : pystr) (pre l : list pystr) :
  join sep (pre ++ x :: l)
  = flat_map (fun b => b ++ sep) pre ++ join sep (x :: l).
Proof.
  induction pre as [|p pre IH]; [reflexivity|].
  destruct pre as [|q pre].
  - simpl. rewrite <- !app_assoc. reflexivity.
  - change ((p :: q :: pre) ++ x :: l) with (p :: q :: (pre ++ x :: l)).
    rewrite join_cons_cons.
    change (q :: pre ++ x :: l) with ((q :: pre) ++ x :: l).
    rewrite IH. simpl. rewrite <- !app_assoc. reflexivity.
Qed.

(** The text around the seam of two consecutive items of a join. *)
Lemma join_seam (sep x y : pystr) (pre post : list pystr) :
  join sep (pre ++ x :: y :: post)
  = flat_map (fun b => b ++ sep) pre ++ x ++ sep ++ y
    ++ flat_map (fun b => sep ++ b) post.
Proof. rewrite join_app_cons, join_cons_cons, join_cons. reflexivity. Qed.

End PyFacts.

(** ** The batch loop of stage 2 *)
Section BatchFacts.
Context {Net : Type} {extractor : ArticleExtractor Net}
        {remote : AssetRemote Net}.
Import ArticleContentExtractorNode.

Lemma links_of_nonblank_lines (feed_links : pystr) :
  links_of feed_links = Spec.nonblank_lines feed_links.
Proof.
  unfold links_of, Spec.nonblank_lines. f_equal.
  apply List.filter_ext. intros line. apply strip_truthy.
Qed.

Lemma separator_dashes : separator = Spec.dashes ++ nl.
Proof. reflexivity. Qed.

Lemma error_block_failure (link : pystr) (e : exn) :
  error_block link e = Spec.failure_block link (exn_str e).
Proof. reflexivity. Qed.

(** Every way one run of the loop body can go. *)
Lemma process_link_cases (et es ex : bool) (link : pystr) (w : World Net) :
  exists r w' tr,
    process_link et es ex link w = (r, w', tr)
    /\ forallb Spec.is_link_event tr = true
    /\ Spec.downloads tr = [link]
    /\ (forall u, In (EvNlp u) tr -> es = true /\ u = link)
    /\ match r with
       | inl _ => True
       | inr content =>
           exists html a summary,
             fst (article_download link (net w)) = inr html
             /\ article_parse html = inr a
             /\ (es = true ->
                 article_nlp a (nltk_search_path w) (disk w) = inr summary)
             /\ (es = true <-> In (EvNlp link) tr)
             /\ content = Spec.success_block et es ex link a summary
       end.
Proof.
  run_link w link.
  - do 3 eexists. split; [reflexivity|]. simpl.
    split; [reflexivity|]. split; [reflexivity|]. split; [|exact I].
    intros u [H|[]]; discriminate.
  - do 3 eexists. split; [reflexivity|]. simpl.
    split; [reflexivity|]. split; [reflexivity|]. split; [|exact I].
    intros u [H|[H|[]]]; discriminate.
  - destruct es.
    + simpl.
      destruct (article_nlp a (nltk_search_path w) (disk w))
        as [e|summary] eqn:Hnlp.
      * do 3 eexists. split; [reflexivity|]. simpl.
        split; [reflexivity|]. split; [reflexivity|]. split; [|exact I].
        intros u [H|[H|[H|[]]]]; try discriminate.
        split; [reflexivity|congruence].
      * do 3 eexists. split; [reflexivity|]. simpl.
        split; [reflexivity|]. split; [reflexivity|]. split.
        { intros u [H|[H|[H|[]]]]; try discriminate.
          split; [reflexivity|congruence]. }
        exists html, a, summary.
        split; [reflexivity|]. split; [exact Hparse|].
        split; [intros _; exact Hnlp|]. split.
        { split; [intros _; right; right; left; reflexivity|reflexivity]. }
        destruct et, ex; same_text.
    + do 3 eexists. split; [reflexivity|]. simpl.
      split; [reflexivity|]. split; [reflexivity|]. split.
      { intros u [H|[H|[]]]; discriminate. }
      exists html, a, [].
      split; [reflexivity|]. split; [exact Hparse|].
      split; [discriminate|]. split.
      { split; [discriminate|]. intros [H|[H|[]]]; discriminate. }
      destruct et, ex; same_text.
Qed.

(** The [try] with its handler always ends in the block of the outcome. *)
Lemma attempt_block (et es ex : bool) (link : pystr) (w : World Net) :
  exists r w' tr,
    process_link et es ex link w = (r, w', tr)
    /\ try_except (process_link et es ex link) is_Exception
                  (fun e => ret (error_block link e)) w
       = (inr (Spec.outcome_block link r), w', tr)
    /\ Spec.block_of et es ex link (Spec.outcome_block link r)
    /\ forallb Spec.is_link_event tr = true
    /\ Spec.downloads tr = [link]
    /\ (forall u, In (EvNlp u) tr -> es = true).
Proof.
  destruct (process_link_cases et es ex link w)
    as (r & w' & tr & Hrun & Hev & Hdl & Hnlp & Hr).
  exists r, w', tr. split; [exact Hrun|].
  unfold try_except. rewrite Hrun.
  destruct r as [e|content].
  - simpl. rewrite app_nil_r. split; [reflexivity|].
    split; [left; exists (exn_str e); reflexivity|].
    split; [exact Hev|]. split; [exact Hdl|].
    intros u Hu. apply (Hnlp u Hu).
  - split; [reflexivity|]. split.
    { destruct Hr as (html & a & summary & _ & _ & _ & _ & ->).
      right. exists a, summary. reflexivity. }
    split; [exact Hev|]. split; [exact Hdl|].
    intros u Hu. apply (Hnlp u Hu).
Qed.

Lemma downloads_app (t1 t2 : list event) :
  Spec.downloads (t1 ++ t2) = Spec.downloads t1 ++ Spec.downloads t2.
Proof. apply omap_app. Qed.

(** The loop appends one block per link, in the order of the links. *)
Lemma for_links_blocks (et es ex : bool) (links : list pystr) :
  forall (results : list pystr) (w : World Net),
  exists blocks w' tr,
    for_links et es ex links results w = (inr (results ++ blocks), w', tr)
    /\ Spec.batch et es ex w links blocks w'
    /\ Forall2 (Spec.block_of et es ex) links blocks
    /\ forallb Spec.is_link_event tr = true
    /\ Spec.downloads tr = links
    /\ (forall u, In (EvNlp u) tr -> es = true).
Proof.
  induction links as [|link rest IH]; intros results w.
  - exists [], w, []. simpl. unfold ret. rewrite app_nil_r.
    split; [reflexivity|]. split; [constructor|]. split; [constructor|].
    split; [reflexivity|]. split; [reflexivity|]. intros u [].
  - destruct (attempt_block et es ex link w)
      as (r & w1 & t1 & Hone & Hrun & Hb & Hev & Hdl & Hnlp).
    destruct (IH (results ++ [Spec.outcome_block link r]) w1)
      as (blocks & w2 & t2 & Hrest & Hbatch & Hbs & Hev2 & Hdl2 & Hnlp2).
    exists (Spec.outcome_block link r :: blocks), w2, (t1 ++ t2).
    split.
    { simpl. unfold bind at 1. rewrite Hrun, Hrest.
      rewrite <- app_assoc. reflexivity. }
    split; [econstructor; eassumption|].
    split; [constructor; assumption|].
    split; [rewrite forallb_app, Hev, Hev2; reflexivity|].
    split; [rewrite downloads_app, Hdl, Hdl2; reflexivity|].
    intros u Hu. apply in_app_or in Hu. destruct Hu; eauto.
Qed.

End BatchFacts.

(** ** The tokenizer check and the clean-up *)
Section AssetFacts.
Context {Net : Type} {extractor : ArticleExtractor Net}
        {remote : AssetRemote Net}.
Import ArticleContentExtractorNode.

Lemma ensure_punkt_present (dir : pystr) (w : World Net) :
  Spec.punkt_present w = true ->
  ensure_punkt dir w = (inr tt, w, [EvFind Spec.punkt; EvPrint MsgPunktFound]).
Proof.
  intros H. unfold ensure_punkt, try_except, bind, nltk_data_find.
  unfold Spec.punkt_present, Spec.punkt in H.
  rewrite H. reflexivity.
Qed.

Lemma ensure_punkt_absent (dir : pystr) (w : World Net) :
  Spec.punkt_present w = false ->
  ensure_punkt dir w
  = (inr tt, Spec.after_download dir w,
     [EvFind Spec.punkt; EvPrint MsgPunktMissing; EvFetch (lit "punkt") dir]).
Proof.
  intros H.
  unfold Spec.after_download, ensure_punkt, try_except, bind, nltk_data_find.
  unfold Spec.punkt_present, Spec.punkt in H.
  rewrite H. unfold is_LookupError, print, emit, nltk_download, ret.
  cbn [exn_class].
  destruct (nltk_fetch (lit "punkt") (net w)) as [ok n']. reflexivity.
Qed.

Lemma ensure_punkt_runs (dir : pystr) (w : World Net) :
  exists w' check,
    ensure_punkt dir w = (inr tt, w', check) /\ Spec.check_events dir check.
Proof.
  destruct (Spec.punkt_present w) eqn:H.
  - do 2 eexists. split; [apply ensure_punkt_present, H|]. left; reflexivity.
  - do 2 eexists. split; [apply ensure_punkt_absent, H|]. right; reflexivity.
Qed.

Lemma clear_punkt_runs (dir : pystr) (w : World Net) :
  exists w' tr,
    clear_punkt dir w = (inr tt, w', tr)
    /\ forallb Spec.is_cleanup_event tr = true.
Proof.
  unfold clear_punkt, try_except, bind, os_path_exists, shutil_rmtree.
  destruct (bool_decide _); [|do 2 eexists; split; reflexivity].
  destruct (rmtree_error _ (net w)) as [[e kept]|];
    do 2 eexists; split; reflexivity.
Qed.

(** A fetch that succeeds into a directory of the search path makes the
    tokenizer present: the next check finds it. *)
Lemma ensure_punkt_fetched (dir : pystr) (w : World Net) :
  In dir (nltk_search_path w) ->
  fst (nltk_fetch (lit "punkt") (net w)) = true ->
  Spec.punkt_present (Spec.after_download dir w) = true.
Proof.
  intros Hin Hok. unfold Spec.punkt_present, Spec.after_download.
  cbn [disk nltk_search_path]. rewrite Hok.
  apply existsb_exists. exists dir. split; [exact Hin|].
  apply bool_decide_eq_true_2, elem_of_union_l, elem_of_singleton.
  reflexivity.
Qed.

Lemma second_check_after_fetch (dir : pystr) (w : World Net) :
  In dir (nltk_search_path w) ->
  Spec.punkt_present w = false ->
  fst (nltk_fetch (lit "punkt") (net w)) = true ->
  bind (ensure_punkt dir) (fun _ => ensure_punkt dir) w
  = (inr tt, Spec.after_download dir w,
     [EvFind Spec.punkt; EvPrint MsgPunktMissing; EvFetch (lit "punkt") dir;
      EvFind Spec.punkt; EvPrint MsgPunktFound]).
Proof.
  intros Hin Habsent Hok. unfold bind.
  rewrite (ensure_punkt_absent dir w Habsent).
  rewrite (ensure_punkt_present dir _ (ensure_punkt_fetched dir w Hin Hok)).
  reflexivity.
Qed.

(** One run of stage 2, from the first statement to the [return]. *)
Lemma execute_run (feed_links : pystr) (et es ex clear : bool)
    (w : World Net) :
  exists blocks w' check loop cleanup,
    execute feed_links et es ex clear w
    = (inr (join nl blocks), w',
       EvPathInsert (os_path_join (module_dir w) (lit "nltk_data"))
         :: check ++ loop ++ cleanup)
    /\ Spec.check_events (os_path_join (module_dir w) (lit "nltk_data")) check
    /\ (exists w1 w2,
          Spec.batch et es ex w1 (Spec.nonblank_lines feed_links) blocks w2)
    /\ Forall2 (Spec.block_of et es ex) (Spec.nonblank_lines feed_links) blocks
    /\ forallb Spec.is_link_event loop = true
    /\ Spec.downloads loop = Spec.nonblank_lines feed_links
    /\ (forall u, In (EvNlp u) loop -> es = true)
    /\ forallb Spec.is_cleanup_event cleanup = true.
Proof.
  set (dir := os_path_join (module_dir w) (lit "nltk_data")).
  set (w0 := mkWorld (module_dir w) (disk w) (dir :: nltk_search_path w) (net w)).
  destruct (ensure_punkt_runs dir w0) as (w1 & check & Hcheck & Hev).
  destruct (for_links_blocks et es ex (links_of feed_links) [] w1)
    as (blocks & w2 & loop & Hloop & Hbatch & Hblocks & Hlink & Hdl & Hnlp).
  rewrite links_of_nonblank_lines in Hbatch, Hblocks, Hdl.
  assert (Hclear : exists w3 cleanup,
             (if clear then clear_punkt dir else ret tt) w2
             = (inr tt, w3, cleanup)
             /\ forallb Spec.is_cleanup_event cleanup = true).
  { destruct clear.
    - apply clear_punkt_runs.
    - exists w2, []. split; reflexivity. }
  destruct Hclear as (w3 & cleanup & Hclear & Hcl).
  exists blocks, w3, check, loop, cleanup.
  split; [|split; [assumption|]; split; [exists w1, w2; assumption|];
           repeat (split; [assumption|]); assumption].
  unfold execute. fold dir.
  unfold bind at 1. unfold nltk_path_insert. fold w0.
  unfold bind at 1. rewrite Hcheck.
  unfold bind at 1. rewrite Hloop.
  unfold bind at 1. rewrite Hclear.
  unfold ret. simpl. rewrite app_nil_r. reflexivity.
Qed.

End AssetFacts.

(** ** Stage 2: the report and its side effects *)
Section ReportClaims.
Context {Net : Type} {extractor : ArticleExtractor Net}
        {remote : AssetRemote Net}.
Import ArticleContentExtractorNode.

Lemma forallb_weaken {A} (f g : A -> bool) (l : list A) :
  (forall x, f x = true -> g x = true) ->
  forallb f l = true -> forallb g l = true.
Proof.
  intros Hfg. induction l as [|x l IH]; simpl; [reflexivity|].
  intros H. apply andb_prop in H. destruct H as [Hx Hl].
  rewrite (Hfg x Hx), (IH Hl). reflexivity.
Qed.

Lemma downloads_none (tr : list event) :
  forallb (fun ev => negb (Spec.is_link_event ev)) tr = true ->
  Spec.downloads tr = [].
Proof.
  induction tr as [|ev tr IH]; simpl; [reflexivity|].
  intros H. apply andb_prop in H. destruct H as [Hev Htr].
  unfold Spec.downloads in *. simpl. rewrite (IH Htr).
  destruct ev; try reflexivity; discriminate.
Qed.

Lemma check_has_no_link_event (dir : pystr) (check : list event) :
  Spec.check_events dir check ->
  forallb (fun ev => negb (Spec.is_link_event ev)) check = true.
Proof. intros [->| ->]; reflexivity. Qed.

Lemma cleanup_has_no_link_event (tr : list event) :
  forallb Spec.is_cleanup_event tr = true ->
  forallb (fun ev => negb (Spec.is_link_event ev)) tr = true.
Proof.
  apply forallb_weaken. intros ev. unfold Spec.is_cleanup_event.
  destruct ev; simpl; congruence.
Qed.

Lemma link_event_not_asset (ev : event) :
  Spec.is_link_event ev = true ->
  negb (Spec.is_find ev || Spec.is_fetch ev) = true.
Proof. destruct ev; simpl; congruence. Qed.

Lemma cleanup_event_not_asset (ev : event) :
  Spec.is_cleanup_event ev = true ->
  negb (Spec.is_find ev || Spec.is_fetch ev) = true.
Proof. unfold Spec.is_cleanup_event. destruct ev; simpl; congruence. Qed.

Lemma filter_none {A} (f : A -> bool) (l : list A) :
  forallb (fun x => negb (f x)) l = true -> List.filter f l = [].
Proof.
  induction l as [|x l IH]; simpl; [reflexivity|].
  intros H. apply andb_prop in H. destruct H as [Hx Hl].
  destruct (f x); [discriminate|]. apply IH, Hl.
Qed.

(** A block starts with a visible character and ends with the separator
    line. *)
Lemma block_shape (et es ex : bool) (link b : pystr) :
  Spec.block_of et es ex link b ->
  exists c body,
    b = c :: body ++ Spec.dashes ++ nl /\ isspace c = false.
Proof.
  intros [(msg & ->)|(a & summary & ->)].
  - exists 69, (lit "rror processing " ++ link ++ lit ": " ++ msg ++ nl).
    split; [same_text|reflexivity].
  - exists 85,
      (lit "RL: " ++ link ++ nl
       ++ (if et then title_line a else [])
       ++ (if es then summary_line summary else [])
       ++ (if ex then text_line a else [])).
    split; [destruct et, es, ex; same_text|reflexivity].
Qed.

(** C5, as the code has it.  The tokenizer check runs once in every
    invocation, whatever [extract_summary] is: the events of a run are the
    path insertion, then the events of one check (one lookup, and one
    fetch when the lookup failed), then the rest, in which nothing is
    looked up or fetched and in which all the links are processed. *)
Theorem asset_check_once (feed_links : pystr) (et es ex clear : bool)
    (w : World Net) :
  exists r w' check rest,
    execute feed_links et es ex clear w
    = (r, w',
       EvPathInsert (os_path_join (module_dir w) (lit "nltk_data"))
         :: check ++ rest)
    /\ Spec.check_events (os_path_join (module_dir w) (lit "nltk_data")) check
    /\ List.filter Spec.is_find check = [EvFind Spec.punkt]
    /\ forallb (fun ev => negb (Spec.is_link_event ev)) check = true
    /\ forallb (fun ev => negb (Spec.is_find ev || Spec.is_fetch ev)) rest = true
    /\ Spec.downloads rest = Spec.nonblank_lines feed_links.
Proof.
  destruct (execute_run feed_links et es ex clear w)
    as (blocks & w' & check & loop & cleanup
        & Hrun & Hcheck & _ & _ & Hlink & Hdl & _ & Hclean).
  exists (inr (join nl blocks)), w', check, (loop ++ cleanup).
  split; [exact Hrun|]. split; [exact Hcheck|].
  split; [destruct Hcheck as [->| ->]; reflexivity|].
  split; [exact (check_has_no_link_event _ _ Hcheck)|].
  split.
  - rewrite forallb_app.
    rewrite (forallb_weaken _ _ loop link_event_not_asset Hlink).
    rewrite (forallb_weaken _ _ cleanup cleanup_event_not_asset Hclean).
    reflexivity.
  - rewrite downloads_app, Hdl.
    rewrite (downloads_none cleanup (cleanup_has_no_link_event _ Hclean)).
    apply app_nil_r.
Qed.

(** C9. With the tokenizer already on the search path, the check looks
    it up, fetches nothing and leaves the world as it was; so does a
    second check right after it. *)
Theorem asset_check_idempotent (dir : pystr) (w : World Net) :
  Spec.punkt_present w = true ->
  exists check,
    ensure_punkt dir w = (inr tt, w, check)
    /\ List.filter Spec.is_fetch check = []
    /\ bind (ensure_punkt dir) (fun _ => ensure_punkt dir) w
       = (inr tt, w, check ++ check)
    /\ List.filter Spec.is_fetch (check ++ check) = [].
Proof.
  intros H. pose proof (ensure_punkt_present dir w H) as Hrun.
  exists [EvFind Spec.punkt; EvPrint MsgPunktFound].
  split; [exact Hrun|]. split; [reflexivity|].
  split; [|reflexivity].
  unfold bind. rewrite Hrun, Hrun. reflexivity.
Qed.

Lemma blocks_shape (et es ex : bool) (links blocks : list pystr) :
  Forall2 (Spec.block_of et es ex) links blocks ->
  Forall (fun b => exists c body,
            b = c :: body ++ Spec.dashes ++ nl /\ isspace c = false) blocks.
Proof.
  induction 1 as [|link b links blocks Hb _ IH]; constructor.
  - apply (block_shape et es ex link b Hb).
  - exact IH.
Qed.

Lemma success_block_fields (et es ex : bool) (link : pystr) (a : article)
    (summary : pystr) :
  Spec.success_block et es ex link a summary
  = flat_map Spec.render (Spec.fields_of et es ex link a summary)
    ++ Spec.dashes ++ nl.
Proof. destruct et, es, ex; same_text. Qed.

Lemma fields_wanted (et es ex : bool) (link : pystr) (a : article)
    (summary : pystr) :
  map Spec.kind (Spec.fields_of et es ex link a summary)
  = Spec.wanted et es ex.
Proof. destruct et, es, ex; reflexivity. Qed.

Lemma wanted_kinds (et es ex : bool) :
  In Spec.KUrl (Spec.wanted et es ex)
  /\ (In Spec.KTitle (Spec.wanted et es ex) <-> et = true)
  /\ (In Spec.KSummary (Spec.wanted et es ex) <-> es = true)
  /\ (In Spec.KText (Spec.wanted et es ex) <-> ex = true).
Proof.
  destruct et, es, ex; simpl; intuition congruence.
Qed.

(** C8. The block of a link that was processed is the URL line, then
    the Title, Summary and Text lines of the options that are enabled and
    of no other, then the separator; and the summarization pass runs on a
    link only when [extract_summary] is enabled. *)
Theorem result_fields (et es ex : bool) (link : pystr) (w : World Net)
    (r : exn + pystr) (w' : World Net) (tr : list event) :
  process_link et es ex link w = (r, w', tr) ->
  (forall u, In (EvNlp u) tr -> es = true)
  /\ match r with
     | inl _ => True
     | inr content =>
         exists html a summary,
           fst (article_download link (net w)) = inr html
           /\ article_parse html = inr a
           /\ (es = true ->
               article_nlp a (nltk_search_path w) (disk w) = inr summary)
           /\ content
              = flat_map Spec.render
                  (Spec.fields_of et es ex link a summary)
                ++ Spec.dashes ++ nl
           /\ map Spec.kind (Spec.fields_of et es ex link a summary)
              = Spec.wanted et es ex
           /\ (In (EvNlp link) tr <-> es = true)
     end
  /\ In Spec.KUrl (Spec.wanted et es ex)
  /\ (In Spec.KTitle (Spec.wanted et es ex) <-> et = true)
  /\ (In Spec.KSummary (Spec.wanted et es ex) <-> es = true)
  /\ (In Spec.KText (Spec.wanted et es ex) <-> ex = true).
Proof.
  intros Hrun.
  destruct (process_link_cases et es ex link w)
    as (r0 & w0 & tr0 & Hrun0 & _ & _ & Hnlp & Hr).
  rewrite Hrun in Hrun0. injection Hrun0 as <- <- <-.
  split; [intros u Hu; apply (Hnlp u Hu)|].
  split; [|apply wanted_kinds].
  destruct r as [e|content]; [exact I|].
  destruct Hr as (html & a & summary & Hdl & Hparse & Hsum & Hiff & ->).
  exists html, a, summary.
  split; [exact Hdl|]. split; [exact Hparse|]. split; [exact Hsum|].
  split; [apply success_block_fields|].
  split; [apply fields_wanted|].
  split; apply Hiff.
Qed.

(** C7, as the code has it.  With [extract_text] enabled, the Text line
    of a processed link is "Text: ", the first 500 characters of the
    article text, and "..."; the excerpt is a prefix of the text of at
    most 500 characters, and it is the whole text exactly when the text
    has at most 500 characters. *)
Theorem text_excerpt_bounded (et es : bool) (link : pystr) (w : World Net)
    (content : pystr) (w' : World Net) (tr : list event) :
  process_link et es true link w = (inr content, w', tr) ->
  exists html a before,
    fst (article_download link (net w)) = inr html
    /\ article_parse html = inr a
    /\ content
       = before ++ lit "Text: " ++ take 500 (text a) ++ lit "..." ++ nl
         ++ Spec.dashes ++ nl
    /\ (length (take 500 (text a)) <= 500)%nat
    /\ take 500 (text a) `prefix_of` text a
    /\ (take 500 (text a) = text a <-> (length (text a) <= 500)%nat).
Proof.
  intros Hrun.
  destruct (process_link_cases et es true link w)
    as (r & w0 & tr0 & Hrun0 & _ & _ & _ & Hr).
  rewrite Hrun in Hrun0. injection Hrun0 as <- _ _.
  destruct Hr as (html & a & summary & Hdl & Hparse & _ & _ & ->).
  exists html, a,
    (url_line link ++ (if et then title_line a else [])
     ++ (if es then summary_line summary else [])).
  split; [exact Hdl|]. split; [exact Hparse|].
  split; [destruct et, es; same_text|].
  split; [rewrite length_take; lia|].
  split; [exists (drop 500 (text a)); symmetry; apply take_drop|].
  split.
  - intros H. rewrite <- H at 1. rewrite length_take. lia.
  - intros H. apply take_ge. exact H.
Qed.

End ReportClaims.

(** ** Stage 2 in the concrete world *)
Section ReportRuns.
Import ArticleContentExtractorNode.

(** Three links, the second unreachable: three blocks, the second the
    error line, the other two with their fields. *)
Example batch_of_three :
  fst (fst (execute (extractor := Demo.extractor) (remote := Demo.remote)
              (lit "http://news.example/1" ++ nl ++ lit "  " ++ nl
               ++ lit " http://down.example/a " ++ nl
               ++ lit "http://news.example/3" ++ nl)
              true false true false Demo.cached))
  = inr (join nl
           [lit "URL: http://news.example/1" ++ nl ++ lit "Title: A title" ++ nl
            ++ lit "Text: Short body..." ++ nl ++ Spec.dashes ++ nl;
            lit "Error processing http://down.example/a: unreachable" ++ nl
            ++ Spec.dashes ++ nl;
            lit "URL: http://news.example/3" ++ nl ++ lit "Title: A title" ++ nl
            ++ lit "Text: Short body..." ++ nl ++ Spec.dashes ++ nl]).
Proof. vm_compute. reflexivity. Qed.

(** Against C5 as written: with summaries disabled and no link at all,
    the tokenizer is still looked up, and fetched when it is missing. *)
Lemma asset_check_not_gated : ~ Claimed.asset_check_gated.
Proof.
  intros H.
  specialize (H nat Demo.extractor Demo.remote [] false false false false
                Demo.fresh (EvFind Spec.punkt)).
  assert (Hes : false = true); [|discriminate Hes].
  apply H; [|reflexivity].
  vm_compute. right. left. reflexivity.
Qed.

(** C9 on the world that has the tokenizer in the node's cache. *)
Lemma asset_check_idempotent_witness :
  Spec.punkt_present Demo.cached = true
  /\ exists check,
       ensure_punkt (remote := Demo.remote)
         (Demo.node_dir ++ lit "/nltk_data") Demo.cached
       = (inr tt, Demo.cached, check)
       /\ List.filter Spec.is_fetch check = []
       /\ bind (ensure_punkt (remote := Demo.remote)
                  (Demo.node_dir ++ lit "/nltk_data"))
               (fun _ => ensure_punkt (remote := Demo.remote)
                           (Demo.node_dir ++ lit "/nltk_data"))
               Demo.cached
          = (inr tt, Demo.cached, check ++ check)
       /\ List.filter Spec.is_fetch (check ++ check) = [].
Proof.
  split; [vm_compute; reflexivity|].
  apply asset_check_idempotent. vm_compute. reflexivity.
Defined.

(** C8 on a link processed with titles and texts but no summaries. *)
Lemma result_fields_witness :
  exists content w' tr,
    process_link (extractor := Demo.extractor)
      true false true (lit "http://news.example/1") Demo.fresh
    = (inr content, w', tr)
    /\ content
       = lit "URL: http://news.example/1" ++ nl ++ lit "Title: A title" ++ nl
         ++ lit "Text: Short body..." ++ nl ++ Spec.dashes ++ nl
    /\ ~ In Spec.KSummary (Spec.wanted true false true)
    /\ ~ In (EvNlp (lit "http://news.example/1")) tr.
Proof.
  eexists _, _, _.
  match goal with
  | |- ?run = ?res /\ _ => assert (H : run = res) by reflexivity
  end.
  split; [exact H|].
  destruct (result_fields (extractor := Demo.extractor) _ _ _ _ _ _ _ _ H)
    as (Hnlp & _ & _ & _ & Hsum & _).
  split; [vm_compute; reflexivity|].
  split; [intros Hin; apply Hsum in Hin; discriminate Hin|].
  intros Hin. apply Hnlp in Hin. discriminate Hin.
Defined.

(** Against C7 as written: a short article is in the Text field whole. *)
Lemma short_text_kept_whole : ~ Claimed.text_never_whole.
Proof.
  intros H.
  destruct (H (Article (lit "A title") (lit "Short body")) (lit "Short body"))
    as [_ Hne]; [reflexivity|].
  apply Hne. reflexivity.
Qed.

(** C7 on an article of 600 characters. *)
Lemma text_excerpt_bounded_witness :
  exists content w' tr,
    process_link (extractor := Demo.extractor)
      false false true (lit "http://news.example/long") Demo.fresh
    = (inr content, w', tr)
    /\ exists html a before,
         fst (article_download (ArticleExtractor := Demo.extractor)
                (lit "http://news.example/long") (net Demo.fresh)) = inr html
         /\ article_parse (ArticleExtractor := Demo.extractor) html = inr a
         /\ content
            = before ++ lit "Text: " ++ take 500 (text a) ++ lit "..." ++ nl
              ++ Spec.dashes ++ nl
         /\ (length (take 500 (text a)) <= 500)%nat
         /\ take 500 (text a) `prefix_of` text a
         /\ (take 500 (text a) = text a <-> (length (text a) <= 500)%nat).
Proof.
  eexists _, _, _.
  match goal with
  | |- ?run = ?res /\ _ => assert (H : run = res) by reflexivity
  end.
  split; [exact H|].
  exact (text_excerpt_bounded (extractor := Demo.extractor) _ _ _ _ _ _ _ H).
Defined.

End ReportRuns.

(** ** Stage 1: text replacement *)
Section ReplaceFacts.

Lemma replace_from_skip (old new : pystr) (s : pystr) :
  forall k, replace_from old new k s = replace_from old new 0 (drop k s).
Proof.
  induction s as [|c s IH]; intros k.
  - destruct k; reflexivity.
  - destruct k as [|k]; [reflexivity|]. simpl. apply IH.
Qed.

Lemma startswith_nil (o : char) (old : pystr) : startswith [] (o :: old) = false.
Proof. reflexivity. Qed.

(** At an occurrence, [new] is put and the occurrence is passed over. *)
Lemma replace_from_match (o : char) (old new s : pystr) :
  startswith s (o :: old) = true ->
  replace_from (o :: old) new 0 s
  = new ++ replace_from (o :: old) new 0 (drop (length (o :: old)) s).
Proof.
  destruct s as [|c s]; [discriminate|].
  intros H. cbn [replace_from]. rewrite H. f_equal.
  rewrite replace_from_skip. cbn [length drop].
  rewrite Nat.sub_succ, Nat.sub_0_r. reflexivity.
Qed.

Lemma replace_from_step (o : char) (old new : pystr) (c : char) (s : pystr) :
  startswith (c :: s) (o :: old) = false ->
  replace_from (o :: old) new 0 (c :: s)
  = c :: replace_from (o :: old) new 0 s.
Proof. intros H. cbn [replace_from]. rewrite H. reflexivity. Qed.

(** Without an occurrence the text is unchanged. *)
Lemma replace_absent (o : char) (old new s : pystr) :
  Spec.index_of (o :: old) s = None ->
  replace s (o :: old) new = s.
Proof.
  unfold replace. induction s as [|c s IH]; [reflexivity|].
  cbn [Spec.index_of].
  destruct (startswith (c :: s) (o :: old)) eqn:Hc; [discriminate|].
  intros H. rewrite (replace_from_step _ _ _ _ _ Hc). f_equal. apply IH.
  destruct (Spec.index_of (o :: old) s); [discriminate|reflexivity].
Qed.

(** The text up to the first occurrence is kept, the occurrence is
    replaced, and the replacement goes on behind it. *)
Lemma replace_first (o : char) (old new s : pystr) :
  forall i,
    Spec.index_of (o :: old) s = Some i ->
    replace s (o :: old) new
    = take i s ++ new ++ replace (drop (i + length (o :: old)) s) (o :: old) new.
Proof.
  unfold replace. induction s as [|c s IH]; intros i.
  - cbn [Spec.index_of]. rewrite startswith_nil. discriminate.
  - cbn [Spec.index_of].
    destruct (startswith (c :: s) (o :: old)) eqn:Hc.
    + intros [= <-]. rewrite (replace_from_match _ _ _ _ Hc). reflexivity.
    + destruct (Spec.index_of (o :: old) s) as [j|] eqn:Hj; [|discriminate].
      intros [= <-]. rewrite (replace_from_step _ _ _ _ _ Hc).
      rewrite (IH j eq_refl). reflexivity.
Qed.

End ReplaceFacts.

(** ** Stage 1: the text handed to the parser *)
Section DeclarationClaims.
Context {Net : Type} {http : HttpClient Net}.
Import RSSFeedParserNode.

Lemma xml_declaration_cons : exists old, xml_declaration = 60 :: old.
Proof. eexists. reflexivity. Qed.

Lemma startswith_app (p s : pystr) : startswith (p ++ s) p = true.
Proof.
  induction p as [|a p IH]; [reflexivity|].
  simpl. rewrite N.eqb_refl. exact IH.
Qed.

Lemma index_of_unfold (p s : pystr) :
  Spec.index_of p s
  = if startswith s p then Some 0%nat
    else match s with
         | [] => None
         | _ :: s' => S <$> Spec.index_of p s'
         end.
Proof. destruct s; reflexivity. Qed.

Lemma index_of_prefix (p s : pystr) : Spec.index_of p (p ++ s) = Some 0%nat.
Proof. rewrite index_of_unfold, startswith_app. reflexivity. Qed.

Lemma xml_content_replace (r : response) :
  xml_content r
  = replace (decode (Some (lit "utf-8")) (content r)) xml_declaration [].
Proof. reflexivity. Qed.

(** C6, as the code has it.  The body is decoded as UTF-8 and every
    occurrence of the literal [<?xml version="1.0" encoding="UTF-8"?>] is
    removed from the text, wherever it stands: the text up to the first
    occurrence is kept, the occurrence is dropped, and the same is done
    behind it; a text without an occurrence goes to the parser as it is.
    So a text that starts with the literal loses it. *)
Theorem declaration_removed (r : response) :
  let t := decode (Some (lit "utf-8")) (content r) in
  xml_content r
  = match Spec.index_of xml_declaration t with
    | None => t
    | Some i =>
        take i t
        ++ replace (drop (i + length xml_declaration) t) xml_declaration []
    end
  /\ (forall rest,
        t = xml_declaration ++ rest ->
        xml_content r = replace rest xml_declaration []).
Proof.
  intros t. rewrite xml_content_replace. fold t.
  destruct xml_declaration_cons as (old & Hd).
  assert (Hfirst :
    replace t xml_declaration []
    = match Spec.index_of xml_declaration t with
      | None => t
      | Some i =>
          take i t
          ++ replace (drop (i + length xml_declaration) t) xml_declaration []
      end).
  { rewrite Hd.
    destruct (Spec.index_of (60 :: old) t) as [i|] eqn:Hi.
    - exact (replace_first _ _ [] _ _ Hi).
    - apply (replace_absent _ _ _ _ Hi). }
  split; [exact Hfirst|].
  intros rest Ht. rewrite Hfirst.
  assert (H0 : Spec.index_of xml_declaration t = Some 0%nat).
  { rewrite Ht. apply index_of_prefix. }
  rewrite H0, Ht, Nat.add_0_l, drop_app_length. reflexivity.
Qed.

End DeclarationClaims.

(** ** Stage 1: the link lists *)
Section FeedClaims.
Context {Net : Type} {http : HttpClient Net} {xml : XmlLibrary}.
Import RSSFeedParserNode.

Lemma element_ind_children (P : Xml.element -> Prop) :
  (forall t a x cs, Forall P cs -> P (Xml.Element t a x cs)) ->
  forall e, P e.
Proof.
  intros H. fix IH 1. intros [t a x cs]. apply H.
  induction cs as [|c cs IHcs]; constructor; [apply IH|exact IHcs].
Qed.

(** [.//item] selects the items in document order. *)
Lemma findall_items (e : Xml.element) :
  Xml.findall_descendants (lit "item") e = Spec.items_of e.
Proof.
  induction e as [t a x cs IH] using element_ind_children.
  unfold Xml.findall_descendants. cbn [Xml.descendants Spec.items_of].
  induction IH as [|c cs Hc _ IHcs]; [reflexivity|].
  cbn [flat_map]. rewrite List.filter_app, IHcs. f_equal.
  cbn [List.filter]. rewrite <- Hc. unfold Xml.findall_descendants.
  destruct (Xml.has_tag (lit "item") c); reflexivity.
Qed.

Lemma find_filter {A} (f : A -> bool) (l : list A) :
  List.find f l = match List.filter f l with [] => None | x :: _ => Some x end.
Proof.
  induction l as [|x l IH]; [reflexivity|].
  simpl. destruct (f x); [reflexivity|exact IH].
Qed.

Lemma findtext_link (item : Xml.element) :
  Xml.findtext (lit "link") item = Spec.link_text item.
Proof.
  unfold Xml.findtext, Xml.find, Spec.link_text. rewrite find_filter.
  destruct (List.filter _ _); reflexivity.
Qed.

Lemma find_link (item : Xml.element) :
  bool_decide (Xml.find (lit "link") item <> None)
  = bool_decide (Spec.link_text item <> None).
Proof.
  unfold Xml.find, Spec.link_text. rewrite find_filter.
  destruct (List.filter _ _); reflexivity.
Qed.

(** The list comprehension of [parse_rss], item by item. *)
Lemma parse_rss_links (root : Xml.element) :
  parse_rss root = map Some (Spec.rss_links root).
Proof.
  unfold parse_rss, Spec.rss_links. rewrite findall_items.
  induction (Spec.items_of root) as [|item items IH]; [reflexivity|].
  cbn [List.filter]. rewrite find_link.
  change (omap Spec.link_text (item :: items))
    with (match Spec.link_text item with
          | Some t => t :: omap Spec.link_text items
          | None => omap Spec.link_text items
          end).
  destruct (Spec.link_text item) as [t|] eqn:Ht.
  - rewrite bool_decide_eq_true_2 by discriminate.
    cbn [map]. rewrite findtext_link, Ht, IH. reflexivity.
  - rewrite bool_decide_eq_false_2 by (intros H; apply H; reflexivity).
    exact IH.
Qed.

Lemma checked_items_some (l : list pystr) :
  forall i, checked_items i (map Some l) = inr l.
Proof.
  induction l as [|s l IH]; intros i; [reflexivity|].
  simpl. rewrite IH. reflexivity.
Qed.

(** C4, as the code has it.  For a document whose root tag is [rss],
    the link list is, in document order, the text of the first [link]
    child of every [item] below the root that has a [link] child, the
    empty string when that child has no text; items without a [link] child
    are skipped.  Stage 1 hands these texts out joined by newlines. *)
Theorem rss_link_list (root : Xml.element) :
  Xml.tag root = lit "rss" ->
  extract_links root = inr (map Some (Spec.rss_links root))
  /\ str_join nl (map Some (Spec.rss_links root))
     = inr (join nl (Spec.rss_links root))
  /\ Spec.rss_nonempty_links root = List.filter truthy (Spec.rss_links root).
Proof.
  intros Hroot. unfold extract_links, str_join.
  rewrite Hroot, parse_rss_links, checked_items_some.
  split; [reflexivity|]. split; reflexivity.
Qed.

(** The list comprehension of [parse_atom] has no condition: a list it
    returns has one element per entry. *)
Lemma comprehension_length {A B} (f : A -> exn + B) (l : list A) :
  forall ys, comprehension f l = inr ys -> length ys = length l.
Proof.
  induction l as [|x l IH]; intros ys.
  - intros [= <-]. reflexivity.
  - simpl. destruct (f x) as [e|y]; [discriminate|].
    destruct (comprehension f l) as [e|ys']; [discriminate|].
    intros [= <-]. simpl. f_equal. apply IH. reflexivity.
Qed.

Lemma parse_atom_length (root : Xml.element) (links : list (option pystr)) :
  parse_atom root = inr links ->
  length links
  = length (Xml.findall_descendants (Spec.atom_tag "entry") root).
Proof. apply comprehension_length. Qed.

(** A failing step is exactly an exception of the [try] body. *)
Lemma stage1_fails_try (feed_url : pystr) (timeout : Z) (n : Net)
    (e : exn) (n' : Net) :
  Spec.stage1_fails feed_url timeout n e n'
  <-> execute_try feed_url timeout n = (inl e, n').
Proof.
  unfold execute_try, links_text, extract_links. split.
  - intros H. destruct H as
      [e n' Hget | r e n' Hget Hst | r e n' Hget Hst Hx
      | r root n' Hget Hst Hx Hrss Hatom
      | r root e n' Hget Hst Hx Hrss Hatom Hpath
      | r root links e n' Hget Hst Hx Hlinks Hjoin];
      rewrite Hget; try rewrite Hst; try rewrite Hx; try reflexivity.
    + rewrite (bool_decide_eq_false_2 _ Hrss), Hatom. reflexivity.
    + rewrite (bool_decide_eq_false_2 _ Hrss), Hatom, Hpath. reflexivity.
    + unfold extract_links in Hlinks. rewrite Hlinks, Hjoin. reflexivity.
  - destruct (requests_get feed_url timeout n) as [[e0|r] n0] eqn:Hget.
    { intros [= <- <-]. apply Spec.fetch_fails, Hget. }
    destruct (raise_for_status r) as [e0|[]] eqn:Hst.
    { intros [= <- <-]. eapply Spec.status_fails; eassumption. }
    destruct (etree_parse (xml_content r)) as [e0|root] eqn:Hx.
    { intros [= <- <-]. eapply Spec.xml_malformed; eassumption. }
    destruct (bool_decide (Xml.tag root = lit "rss")) eqn:Hrss.
    { intros [= Hjoin <-].
      apply (Spec.join_fails _ _ _ r root (parse_rss root) e n0 Hget Hst Hx);
        [|exact Hjoin].
      unfold extract_links. rewrite Hrss. reflexivity. }
    apply bool_decide_eq_false in Hrss.
    destruct (startswith (Xml.tag root) (lit "{" ++ atom_ns ++ lit "}"))
      eqn:Hatom.
    + destruct (parse_atom root) as [e0|links] eqn:Hpath.
      { intros [= <- <-]. eapply Spec.atom_path_fails; eassumption. }
      intros [= Hjoin <-].
      apply (Spec.join_fails _ _ _ r root links e n0 Hget Hst Hx);
        [|exact Hjoin].
      unfold extract_links.
      rewrite (bool_decide_eq_false_2 _ Hrss), Hatom. exact Hpath.
    + intros [= <- <-]. eapply Spec.root_unsupported; eassumption.
Qed.

(** C3. Whatever step of stage 1 fails -- the fetch, the status of the
    response, the XML parser, the dispatch on a root tag that is neither
    [rss] nor in the Atom namespace, the link extraction or the join --
    the exception stays inside: [execute] returns "Error parsing feed: "
    followed by the message, and for an unsupported root tag the message
    names the tag.  A run without a failing step returns the link text. *)
Theorem stage1_error_string (feed_url : pystr) (timeout : Z) (n : Net) :
  (forall e n',
     Spec.stage1_fails feed_url timeout n e n' ->
     execute feed_url timeout n
     = (lit "Error parsing feed: " ++ exn_str e, n')
     /\ startswith (fst (execute feed_url timeout n))
                   (lit "Error parsing feed: ") = true)
  /\ (forall r root n',
        requests_get feed_url timeout n = (inr r, n') ->
        raise_for_status r = inr tt ->
        etree_parse (xml_content r) = inr root ->
        Xml.tag root <> lit "rss" ->
        startswith (Xml.tag root) (lit "{" ++ atom_ns ++ lit "}") = false ->
        execute feed_url timeout n
        = (lit "Error parsing feed: Unsupported feed format: "
           ++ Xml.tag root, n'))
  /\ (forall links n',
        execute_try feed_url timeout n = (inr links, n') ->
        execute feed_url timeout n = (links, n'))
  /\ (forall e n',
        execute_try feed_url timeout n = (inl e, n') ->
        Spec.stage1_fails feed_url timeout n e n').
Proof.
  assert (Hfail : forall e n',
             Spec.stage1_fails feed_url timeout n e n' ->
             execute feed_url timeout n
             = (lit "Error parsing feed: " ++ exn_str e, n')).
  { intros e n' H. apply stage1_fails_try in H.
    unfold execute. rewrite H. reflexivity. }
  split; [|split; [|split]].
  - intros e n' H. rewrite (Hfail e n' H).
    split; [reflexivity|]. apply startswith_app.
  - intros r root n' Hget Hst Hx Hrss Hatom.
    rewrite (Hfail _ _ (Spec.root_unsupported _ _ _ r root n'
                          Hget Hst Hx Hrss Hatom)).
    reflexivity.
  - intros links n' H. unfold execute. rewrite H. reflexivity.
  - intros e n' H. apply stage1_fails_try, H.
Qed.

End FeedClaims.

(** ** Stage 1 in the concrete world *)
Section FeedRuns.
Import RSSFeedParserNode.

(** Against C4 as written: an empty [link] element gives an empty text
    in the list. *)
Lemma rss_empty_link_kept : ~ Claimed.rss_links_nonempty.
Proof.
  intros H. specialize (H Demo.rss_root eq_refl).
  vm_compute in H. discriminate H.
Qed.

(** C4 on the feed of three items. *)
Lemma rss_link_list_witness :
  Xml.tag Demo.rss_root = lit "rss"
  /\ extract_links (xml := Demo.lxml) Demo.rss_root
     = inr (map Some (Spec.rss_links Demo.rss_root))
  /\ str_join nl (map Some (Spec.rss_links Demo.rss_root))
     = inr (join nl (Spec.rss_links Demo.rss_root))
  /\ Spec.rss_nonempty_links Demo.rss_root
     = List.filter truthy (Spec.rss_links Demo.rss_root).
Proof.
  split; [reflexivity|].
  apply (rss_link_list (xml := Demo.lxml) Demo.rss_root). reflexivity.
Defined.

(** Against C6 as written: the literal is removed from inside a comment
    of the document too. *)
Lemma declaration_removed_inside : ~ Claimed.only_leading_declaration_removed.
Proof.
  intros H.
  specialize (H nat Demo.http
                (Response 200 (lit "OK") (lit "http://feeds.example/commented")
                          Demo.commented_text None)).
  vm_compute in H. discriminate H.
Qed.

(** C6 on a feed that starts with the literal. *)
Lemma declaration_removed_witness :
  xml_content (http := Demo.http)
    (Response 200 (lit "OK") (lit "http://feeds.example/rss")
              Demo.rss_text None)
  = Demo.rss_body.
Proof.
  destruct (declaration_removed (http := Demo.http)
              (Response 200 (lit "OK") (lit "http://feeds.example/rss")
                        Demo.rss_text None)) as [_ Hlead].
  rewrite (Hlead Demo.rss_body eq_refl). vm_compute. reflexivity.
Defined.

(** C3 on a document whose root is [html]. *)
Lemma stage1_error_string_witness :
  execute (http := Demo.http) (xml := Demo.lxml)
    (lit "http://feeds.example/html") 10 0%nat
  = (lit "Error parsing feed: Unsupported feed format: html", 1%nat).
Proof.
  destruct (stage1_error_string (http := Demo.http) (xml := Demo.lxml)
              (lit "http://feeds.example/html") 10 0%nat)
    as (_ & Hroot & _).
  rewrite (Hroot (Response 200 (lit "OK") (lit "http://feeds.example/html")
                            Demo.html_text None) Demo.html_root 1%nat);
    try reflexivity.
  - vm_compute. discriminate.
Defined.

(** An ElementPath that reads the attribute gives the links of a feed
    in which every entry has one. *)
Lemma parse_atom_all_linked (root : Xml.element) :
  Forall (fun entry => Spec.alternate_href entry <> None)
         (Xml.findall_descendants (Spec.atom_tag "entry") root) ->
  parse_atom (xml := Demo.lenient) root
  = inr (map Some (Spec.atom_links root)).
Proof.
  unfold parse_atom, Spec.atom_links.
  change (lit "{" ++ atom_ns ++ lit "}entry") with (Spec.atom_tag "entry").
  induction 1 as [|entry entries Hentry _ IH]; [reflexivity|].
  cbn [comprehension]. rewrite IH.
  change (findtext_alternate_href entry) with (inr (A := exn) (Spec.alternate_href entry)).
  change (omap Spec.alternate_href (entry :: entries))
    with (match Spec.alternate_href entry with
          | Some t => t :: omap Spec.alternate_href entries
          | None => omap Spec.alternate_href entries
          end).
  destruct (Spec.alternate_href entry); [reflexivity|].
  exfalso. apply Hentry. reflexivity.
Qed.

(** C2, where the code departs from it.  The feed has one entry and the
    entry has no [link rel="alternate"]: the claimed list is empty, but
    whatever ElementPath does with the path, [parse_atom] does not return
    the empty list, because its comprehension keeps every entry.  With an
    ElementPath that reads the attribute the entry gives [None] and the
    join raises; with lxml's the path itself is refused.  Either way
    stage 1 answers with an error for the whole feed. *)
Theorem atom_entry_without_link_kept :
  Spec.atom_links Demo.atom_root = []
  /\ (forall xml : XmlLibrary,
        parse_atom (xml := xml) Demo.atom_root
        <> inr (map Some (Spec.atom_links Demo.atom_root)))
  /\ fst (execute (http := Demo.http) (xml := Demo.lenient)
            (lit "http://feeds.example/atom") 10 0%nat)
     = lit "Error parsing feed: sequence item 0: expected str instance, "
       ++ lit "NoneType found"
  /\ fst (execute (http := Demo.http) (xml := Demo.lxml)
            (lit "http://feeds.example/atom") 10 0%nat)
     = lit "Error parsing feed: '@'".
Proof.
  split; [reflexivity|]. split; [|split; vm_compute; reflexivity].
  intros xml H. apply (parse_atom_length (xml := xml)) in H.
  vm_compute in H. discriminate H.
Qed.

End FeedRuns.

(** * Further properties *)

(** ** The link list of stage 2 *)
Section LinkFacts.
Import ArticleContentExtractorNode.

Lemma lstrip_lstrip (s : pystr) : lstrip (lstrip s) = lstrip s.
Proof.
  induction s as [|c s IH]; [reflexivity|].
  simpl. destruct (isspace c) eqn:Hc; [exact IH|].
  simpl. rewrite Hc. reflexivity.
Qed.

Lemma lstrip_app_visible (x y : pystr) (c : char) :
  isspace c = false -> lstrip (x ++ c :: y) = lstrip x ++ c :: y.
Proof.
  intros Hc. induction x as [|d x IH]; simpl.
  - rewrite Hc. reflexivity.
  - destruct (isspace d); [exact IH|reflexivity].
Qed.

Lemma rstrip_app_visible (a b : pystr) (c : char) :
  isspace c = false -> rstrip (a ++ c :: b) = a ++ c :: rstrip b.
Proof.
  intros Hc. unfold rstrip.
  rewrite rev_app_distr. simpl. rewrite <- app_assoc. simpl.
  rewrite (lstrip_app_visible _ _ _ Hc).
  rewrite rev_app_distr. simpl. rewrite rev_involutive.
  rewrite <- app_assoc. reflexivity.
Qed.

Lemma rstrip_rstrip (s : pystr) : rstrip (rstrip s) = rstrip s.
Proof. unfold rstrip. rewrite rev_involutive, lstrip_lstrip. reflexivity. Qed.

(** What [lstrip] leaves is empty or starts with a visible character. *)
Lemma lstrip_head (s : pystr) :
  lstrip s = [] \/ exists c t, lstrip s = c :: t /\ isspace c = false.
Proof.
  induction s as [|c s IH]; simpl; [left; reflexivity|].
  destruct (isspace c) eqn:Hc; [exact IH|].
  right. exists c, s. split; [reflexivity|exact Hc].
Qed.

(** A trimmed line, when it is not empty, starts with a visible
    character, and trimming the rest on the right is all that is left to
    do. *)
Lemma strip_cases (s : pystr) :
  strip s = []
  \/ exists c t, lstrip s = c :: t /\ isspace c = false
                /\ strip s = c :: rstrip t.
Proof.
  unfold strip. destruct (lstrip_head s) as [->|(c & t & -> & Hc)].
  - left. reflexivity.
  - right. exists c, t. split; [reflexivity|]. split; [exact Hc|].
    apply (rstrip_app_visible [] t c Hc).
Qed.

Lemma strip_strip (s : pystr) : strip (strip s) = strip s.
Proof.
  destruct (strip_cases s) as [->|(c & t & _ & Hc & ->)]; [reflexivity|].
  unfold strip. cbn [lstrip]. rewrite Hc.
  rewrite (rstrip_app_visible [] (rstrip t) c Hc
           : rstrip (c :: rstrip t) = c :: rstrip (rstrip t)).
  rewrite rstrip_rstrip. reflexivity.
Qed.

Lemma rstrip_last (s : pystr) :
  match rev (rstrip s) with [] => True | c :: _ => isspace c = false end.
Proof.
  unfold rstrip. rewrite rev_involutive.
  destruct (lstrip_head (rev s)) as [->|(c & t & -> & Hc)]; [exact I|exact Hc].
Qed.

Lemma strip_trimmed (s : pystr) :
  truthy (strip s) = true -> More.trimmed (strip s) = true.
Proof.
  destruct (strip_cases s) as [->|(c & t & _ & Hc & ->)]; [discriminate|].
  intros _. unfold More.trimmed. rewrite Hc. simpl.
  pose proof (rstrip_last t) as Hlast.
  destruct (rev (rstrip t)) as [|d u]; simpl; [rewrite Hc|rewrite Hlast];
    reflexivity.
Qed.

Lemma lstrip_no_newline (s : pystr) :
  More.no_newline s = true -> More.no_newline (lstrip s) = true.
Proof.
  unfold More.no_newline. induction s as [|c s IH]; simpl; [reflexivity|].
  intros H. apply andb_prop in H. destruct H as [Hc Hs].
  destruct (isspace c); [apply IH, Hs|].
  simpl. rewrite Hc, Hs. reflexivity.
Qed.

Lemma no_newline_rev (s : pystr) :
  More.no_newline (rev s) = More.no_newline s.
Proof.
  unfold More.no_newline. induction s as [|c s IH]; [reflexivity|].
  cbn [rev forallb]. rewrite forallb_app. cbn [forallb].
  rewrite andb_true_r, andb_comm. f_equal. exact IH.
Qed.

Lemma strip_no_newline (s : pystr) :
  More.no_newline s = true -> More.no_newline (strip s) = true.
Proof.
  intros H. unfold strip, rstrip.
  rewrite no_newline_rev. apply lstrip_no_newline.
  rewrite no_newline_rev. apply lstrip_no_newline, H.
Qed.

Lemma split_not_nil (s : pystr) : split 10 s <> [].
Proof.
  induction s as [|c s IH]; simpl; [discriminate|].
  destruct (c =? 10); [discriminate|].
  destruct (split 10 s); discriminate.
Qed.

(** No piece of a split has a line break. *)
Lemma split_no_newline (s : pystr) :
  Forall (fun piece => More.no_newline piece = true) (split 10 s).
Proof.
  induction s as [|c s IH]; simpl.
  - constructor; [reflexivity|constructor].
  - destruct (c =? 10) eqn:Hc.
    + constructor; [reflexivity|exact IH].
    + destruct (split 10 s) as [|piece pieces]; [constructor; [|constructor]|].
      * unfold More.no_newline. simpl. rewrite Hc. reflexivity.
      * inversion IH as [|? ? Hp Hps]; subst. constructor; [|exact Hps].
        unfold More.no_newline in *. simpl. rewrite Hc, Hp. reflexivity.
Qed.

(** A text without a line break is one line. *)
Lemma split_one_line (s : pystr) :
  More.no_newline s = true -> split 10 s = [s].
Proof.
  unfold More.no_newline. induction s as [|c s IH]; simpl; [reflexivity|].
  intros H. apply andb_prop in H. destruct H as [Hc Hs].
  apply negb_true_iff in Hc. rewrite Hc, (IH Hs). reflexivity.
Qed.

Lemma split_app_newline (x rest : pystr) :
  More.no_newline x = true ->
  split 10 (x ++ 10 :: rest) = x :: split 10 rest.
Proof.
  unfold More.no_newline. induction x as [|c x IH]; simpl; [reflexivity|].
  intros H. apply andb_prop in H. destruct H as [Hc Hx].
  apply negb_true_iff in Hc. rewrite Hc, (IH Hx). reflexivity.
Qed.

(** Joining lines and splitting again gives the lines back. *)
Lemma split_join (x : pystr) (l : list pystr) :
  Forall (fun line => More.no_newline line = true) (x :: l) ->
  split 10 (join nl (x :: l)) = x :: l.
Proof.
  revert x. induction l as [|y l IH]; intros x H.
  - inversion H; subst. apply split_one_line. assumption.
  - inversion H as [|? ? Hx Hl]; subst.
    rewrite join_cons_cons.
    change (x ++ nl ++ join nl (y :: l)) with (x ++ 10 :: join nl (y :: l)).
    rewrite (split_app_newline x _ Hx). f_equal. apply IH, Hl.
Qed.

End LinkFacts.

(** ** What stage 2 takes for its links *)
Section LinkProperties.
Import ArticleContentExtractorNode.

(** X1.  Every link of the batch is trimmed and lies on one line: it is not
    empty, has no whitespace at either end and no line break inside. *)
Theorem links_trimmed (feed_links : pystr) :
  Forall (fun link => More.trimmed link = true
                      /\ More.no_newline link = true)
         (links_of feed_links).
Proof.
  unfold links_of. apply List.Forall_forall. intros link Hin.
  apply in_map_iff in Hin. destruct Hin as (piece & <- & Hpiece).
  apply filter_In in Hpiece. destruct Hpiece as [Hsplit Htruthy].
  split; [apply strip_trimmed, Htruthy|].
  apply strip_no_newline.
  pose proof (split_no_newline feed_links) as Hall.
  rewrite List.Forall_forall in Hall. apply Hall, Hsplit.
Qed.

(** X2.  Lines joined by newlines come back as the links: the blank ones
    dropped, the others trimmed, the order kept. *)
Theorem links_of_join (links : list pystr) :
  Forall (fun link => More.no_newline link = true) links ->
  links_of (join nl links)
  = map strip (List.filter (fun link => truthy (strip link)) links).
Proof.
  intros H. unfold links_of. destruct links as [|x l]; [reflexivity|].
  rewrite (split_join x l H). reflexivity.
Qed.

Lemma links_kept (l : list pystr) :
  Forall (fun link => strip link = link /\ truthy link = true) l ->
  map strip (List.filter (fun link => truthy (strip link)) l) = l.
Proof.
  induction 1 as [|x l [Hx Ht] _ IH]; [reflexivity|].
  cbn [List.filter]. rewrite Hx, Ht. cbn [map]. rewrite Hx, IH. reflexivity.
Qed.

Lemma links_of_one_line (feed_links : pystr) :
  Forall (fun link => More.no_newline link = true) (links_of feed_links).
Proof.
  unfold links_of. apply List.Forall_forall. intros link Hin.
  apply in_map_iff in Hin. destruct Hin as (piece & <- & Hpiece).
  apply filter_In in Hpiece. destruct Hpiece as [Hsplit _].
  apply strip_no_newline.
  pose proof (split_no_newline feed_links) as Hall.
  rewrite List.Forall_forall in Hall. apply Hall, Hsplit.
Qed.

Lemma links_of_stripped (feed_links : pystr) :
  Forall (fun link => strip link = link /\ truthy link = true)
         (links_of feed_links).
Proof.
  unfold links_of. apply List.Forall_forall. intros link Hin.
  apply in_map_iff in Hin. destruct Hin as (piece & <- & Hpiece).
  apply filter_In in Hpiece. destruct Hpiece as [_ Htruthy].
  split; [apply strip_strip|exact Htruthy].
Qed.

(** X3.  The link list is a normal form: writing the links out one per line
    and reading them back changes nothing. *)
Theorem links_of_fixed_point (feed_links : pystr) :
  links_of (join nl (links_of feed_links)) = links_of feed_links.
Proof.
  pose proof (links_of_one_line feed_links) as Hlines.
  pose proof (links_of_stripped feed_links) as Hkept.
  destruct (links_of feed_links) as [|x l] eqn:Hlinks; [reflexivity|].
  unfold links_of at 1. rewrite (split_join x l Hlines).
  apply links_kept, Hkept.
Qed.

Lemma split_app_one_line (x t : pystr) :
  More.no_newline x = true ->
  exists piece pieces,
    split 10 t = piece :: pieces
    /\ split 10 (x ++ t) = (x ++ piece) :: pieces.
Proof.
  unfold More.no_newline. induction x as [|c x IH]; simpl.
  - intros _. destruct (split 10 t) as [|piece pieces] eqn:Ht.
    + exfalso. apply (split_not_nil t Ht).
    + exists piece, pieces. split; reflexivity.
  - intros H. apply andb_prop in H. destruct H as [Hc Hx].
    apply negb_true_iff in Hc. rewrite Hc.
    destruct (IH Hx) as (piece & pieces & Ht & ->).
    exists piece, pieces. split; [exact Ht|reflexivity].
Qed.

Lemma links_of_first (s piece : pystr) (pieces : list pystr) :
  split 10 s = piece :: pieces ->
  truthy (strip piece) = true ->
  links_of s
  = strip piece
    :: map strip (List.filter (fun link => truthy (strip link)) pieces).
Proof.
  intros Hs Ht. unfold links_of. rewrite Hs. cbn [List.filter].
  rewrite Ht. reflexivity.
Qed.

(** X4.  The error text of stage 1 is a link to stage 2: given
    "Error parsing feed: ..." as its input, stage 2 takes the text for a
    link, the first of its batch. *)
Theorem error_text_is_a_link (msg : pystr) :
  exists first rest,
    links_of (lit "Error parsing feed: " ++ msg) = first :: rest
    /\ startswith first (lit "Error parsing feed:") = true.
Proof.
  change (lit "Error parsing feed: " ++ msg)
    with (lit "Error parsing feed:" ++ 32 :: msg).
  destruct (split_app_one_line (lit "Error parsing feed:") (32 :: msg) eq_refl)
    as (piece & pieces & _ & Hsplit).
  assert (Hstrip : strip (lit "Error parsing feed:" ++ piece)
                   = lit "Error parsing feed:" ++ rstrip piece).
  { unfold strip.
    transitivity (rstrip (lit "Error parsing feed" ++ 58 :: piece));
      [reflexivity|].
    transitivity (lit "Error parsing feed" ++ 58 :: rstrip piece);
      [|reflexivity].
    exact (rstrip_app_visible (lit "Error parsing feed") piece 58 eq_refl). }
  assert (Htruthy : truthy (strip (lit "Error parsing feed:" ++ piece)) = true).
  { rewrite Hstrip. reflexivity. }
  eexists _, _. split; [exact (links_of_first _ _ _ Hsplit Htruthy)|].
  rewrite Hstrip. apply startswith_app.
Qed.

End LinkProperties.

(** ** What an invocation of stage 2 does to its host *)
Section HostFacts.
Context {Net : Type} {extractor : ArticleExtractor Net}
        {remote : AssetRemote Net}.
Import ArticleContentExtractorNode.

Lemma same_host_refl (w : World Net) : More.same_host w w.
Proof. repeat split. Qed.

Lemma same_host_trans (w1 w2 w3 : World Net) :
  More.same_host w1 w2 -> More.same_host w2 w3 -> More.same_host w1 w3.
Proof.
  intros (Hm & Hd & Hp) (Hm' & Hd' & Hp').
  split; [|split]; congruence.
Qed.

(** Processing a link touches the network and nothing else. *)
Lemma process_link_same_host (et es ex : bool) (link : pystr)
    (w : World Net) (r : exn + pystr) (w' : World Net) (tr : list event) :
  process_link et es ex link w = (r, w', tr) -> More.same_host w w'.
Proof.
  unfold process_link, bind, download, parse, nlp, ret.
  destruct (article_download link (net w)) as [[e|html] n'].
  { intros [= _ <- _]. repeat split. }
  destruct (article_parse html) as [e|a].
  { intros [= _ <- _]. repeat split. }
  destruct es.
  - cbn [nltk_search_path disk].
    destruct (article_nlp a (nltk_search_path w) (disk w)) as [e|summary];
      intros [= _ <- _]; repeat split.
  - intros [= _ <- _]. repeat split.
Qed.

Lemma for_links_same_host (et es ex : bool) (links : list pystr) :
  forall (results : list pystr) (w : World Net) r w' tr,
    for_links et es ex links results w = (r, w', tr) ->
    More.same_host w w'.
Proof.
  induction links as [|link rest IH]; intros results w r w' tr.
  - intros [= _ <- _]. apply same_host_refl.
  - cbn [for_links]. unfold bind at 1. unfold try_except.
    destruct (process_link et es ex link w) as [[[e|content] w1] t1] eqn:Hone;
      pose proof (process_link_same_host _ _ _ _ _ _ _ _ Hone) as H1.
    + cbn [is_Exception ret].
      destruct (for_links et es ex rest (results ++ [error_block link e]) w1)
        as [[r2 w2] t2] eqn:Hrest.
      intros [= _ <- _]. eapply same_host_trans; [exact H1|].
      eapply IH, Hrest.
    + destruct (for_links et es ex rest (results ++ [content]) w1)
        as [[r2 w2] t2] eqn:Hrest.
      intros [= _ <- _]. eapply same_host_trans; [exact H1|].
      eapply IH, Hrest.
Qed.

(** Joining a relative path to [a] puts a prefix before it that depends
    on [a] alone. *)
Lemma os_path_join_prefix (a b : pystr) :
  startswith b (lit "/") = false ->
  exists pre,
    os_path_join a b = pre ++ b
    /\ forall b', startswith b' (lit "/") = false ->
                  os_path_join a b' = pre ++ b'.
Proof.
  unfold os_path_join. intros ->. destruct a as [|c a].
  - exists []. split; [reflexivity|]. intros b' ->. reflexivity.
  - destruct (bool_decide (last (c :: a) = Some 47)).
    + exists (c :: a). split; [reflexivity|]. intros b' ->. reflexivity.
    + exists ((c :: a) ++ lit "/"). rewrite <- app_assoc.
      split; [reflexivity|]. intros b' ->. rewrite <- app_assoc. reflexivity.
Qed.

(** The directory the clean-up removes is the one the check looks up
    and the download fills. *)
Lemma punkt_path_agree (dir : pystr) :
  os_path_join (os_path_join dir (lit "tokenizers")) (lit "punkt")
  = os_path_join dir (lit "tokenizers/punkt").
Proof.
  destruct (os_path_join_prefix dir (lit "tokenizers") eq_refl)
    as (pre & -> & Hpre).
  rewrite (Hpre (lit "tokenizers/punkt") eq_refl).
  assert (Hlast : last (pre ++ lit "tokenizers") = Some 115).
  { replace (pre ++ lit "tokenizers") with ((pre ++ lit "tokenizer") ++ [115])
      by (rewrite <- app_assoc; reflexivity).
    apply last_snoc. }
  unfold os_path_join.
  change (startswith (lit "punkt") (lit "/")) with false. cbv iota.
  destruct (pre ++ lit "tokenizers") as [|c l] eqn:E; [discriminate Hlast|].
  rewrite Hlast, bool_decide_eq_false_2 by discriminate.
  rewrite <- E, <- app_assoc. reflexivity.
Qed.

End HostFacts.

Section HostSteps.
Context {Net : Type} {extractor : ArticleExtractor Net}
        {remote : AssetRemote Net}.
Import ArticleContentExtractorNode.

(** The four steps of an invocation, one after the other. *)
Lemma execute_steps (feed_links : pystr) (et es ex : bool) (w : World Net) :
  exists w1 check blocks w2 loop,
    ensure_punkt (More.nltk_data_dir w)
      (mkWorld (module_dir w) (disk w)
               (More.nltk_data_dir w :: nltk_search_path w) (net w))
    = (inr tt, w1, check)
    /\ for_links et es ex (links_of feed_links) [] w1 = (inr blocks, w2, loop)
    /\ forallb Spec.is_link_event loop = true
    /\ forall clear : bool,
         exists w3 cleanup,
           (if clear then clear_punkt (More.nltk_data_dir w) else ret tt) w2
           = (inr tt, w3, cleanup)
           /\ forallb Spec.is_cleanup_event cleanup = true
           /\ execute feed_links et es ex clear w
              = (inr (join nl blocks), w3,
                 EvPathInsert (More.nltk_data_dir w)
                   :: check ++ loop ++ cleanup).
Proof.
  set (dir := More.nltk_data_dir w).
  set (w0 := mkWorld (module_dir w) (disk w) (dir :: nltk_search_path w) (net w)).
  destruct (ensure_punkt_runs dir w0) as (w1 & check & Hcheck & _).
  destruct (for_links_blocks et es ex (links_of feed_links) [] w1)
    as (blocks & w2 & loop & Hloop & _ & _ & Hlink & _).
  exists w1, check, blocks, w2, loop.
  split; [exact Hcheck|]. split; [exact Hloop|]. split; [exact Hlink|].
  intros clear.
  assert (Hclear : exists w3 cleanup,
             (if clear then clear_punkt dir else ret tt) w2
             = (inr tt, w3, cleanup)
             /\ forallb Spec.is_cleanup_event cleanup = true).
  { destruct clear.
    - apply clear_punkt_runs.
    - exists w2, []. split; reflexivity. }
  destruct Hclear as (w3 & cleanup & Hclear & Hcl).
  exists w3, cleanup. split; [exact Hclear|]. split; [exact Hcl|].
  unfold execute. change (os_path_join (module_dir w) (lit "nltk_data")) with dir.
  unfold bind at 1. unfold nltk_path_insert. fold w0.
  unfold bind at 1. rewrite Hcheck.
  unfold bind at 1. rewrite Hloop.
  unfold bind at 1. rewrite Hclear.
  unfold ret. simpl. rewrite app_nil_r. reflexivity.
Qed.

(** What the check leaves of the world: the world itself when the
    tokenizer is found, else the world after the download. *)
Lemma ensure_punkt_world (dir : pystr) (w : World Net) r w' check :
  ensure_punkt dir w = (r, w', check) ->
  (Spec.punkt_present w = true /\ w' = w
   /\ check = [EvFind Spec.punkt; EvPrint MsgPunktFound])
  \/ (Spec.punkt_present w = false /\ w' = Spec.after_download dir w
      /\ check = [EvFind Spec.punkt; EvPrint MsgPunktMissing;
                  EvFetch (lit "punkt") dir]).
Proof.
  destruct (Spec.punkt_present w) eqn:H.
  - rewrite (ensure_punkt_present dir w H). intros [= _ <- <-].
    left. repeat split.
  - rewrite (ensure_punkt_absent dir w H). intros [= _ <- <-].
    right. repeat split.
Qed.

End HostSteps.

Section HostWorld.
Context {Net : Type} {extractor : ArticleExtractor Net}
        {remote : AssetRemote Net}.
Import ArticleContentExtractorNode.

Lemma no_failure_app (t1 t2 : list event) :
  forallb (fun ev => negb (Layout.is_clear_failure ev)) (t1 ++ t2) = true ->
  forallb (fun ev => negb (Layout.is_clear_failure ev)) t2 = true.
Proof. rewrite forallb_app. intros H. apply andb_prop in H. apply H. Qed.

(** What the clean-up leaves of the world: it never raises, touches the
    disk only, adds nothing and keeps what is outside the tokenizer
    directory; unless it says that the removal failed, the directory is
    gone. *)
Lemma clear_punkt_world (dir : pystr) (w : World Net) r w' tr :
  clear_punkt dir w = (r, w', tr) ->
  module_dir w' = module_dir w
  /\ nltk_search_path w' = nltk_search_path w
  /\ net w' = net w
  /\ (forall p, p ∈ disk w' -> p ∈ disk w)
  /\ (forall p, p ∈ disk w ->
                More.below (os_path_join dir (lit "tokenizers/punkt")) p = false ->
                p ∈ disk w')
  /\ (forallb (fun ev => negb (Layout.is_clear_failure ev)) tr = true ->
      os_path_join dir (lit "tokenizers/punkt") ∉ disk w').
Proof.
  unfold clear_punkt, try_except, bind, os_path_exists, shutil_rmtree,
    print, emit.
  rewrite punkt_path_agree.
  set (path := os_path_join dir (lit "tokenizers/punkt")).
  destruct (bool_decide (path ∈ disk w)) eqn:Hthere.
  - destruct (rmtree_error path (net w)) as [[e kept]|].
    + intros [= _ <- <-]. cbn [module_dir nltk_search_path net disk].
      split; [reflexivity|]. split; [reflexivity|]. split; [reflexivity|].
      split; [|split].
      * intros p Hin. apply elem_of_filter in Hin. apply Hin.
      * intros p Hin Hbelow. apply elem_of_filter. split; [|exact Hin].
        unfold More.below in Hbelow. apply orb_false_elim in Hbelow.
        destruct Hbelow as [Hne Hsw]. apply bool_decide_eq_false in Hne.
        left. split; assumption.
      * intros Hquiet. discriminate Hquiet.
    + intros [= _ <- <-]. cbn [module_dir nltk_search_path net disk].
      split; [reflexivity|]. split; [reflexivity|]. split; [reflexivity|].
      split; [|split].
      * intros p Hin. apply elem_of_filter in Hin. apply Hin.
      * intros p Hin Hbelow. apply elem_of_filter. split; [|exact Hin].
        unfold More.below in Hbelow. apply orb_false_elim in Hbelow.
        destruct Hbelow as [Hne Hsw]. apply bool_decide_eq_false in Hne.
        split; assumption.
      * intros _ Hin. apply elem_of_filter in Hin.
        destruct Hin as [[Hne _] _]. apply Hne. reflexivity.
  - intros [= _ <- <-]. apply bool_decide_eq_false in Hthere.
    split; [reflexivity|]. split; [reflexivity|]. split; [reflexivity|].
    split; [intros p Hin; exact Hin|].
    split; [intros p Hin _; exact Hin|]. intros _. exact Hthere.
Qed.

(** The tokenizer is looked for on the search path and the disk only. *)
Lemma punkt_present_same_host (w w' : World Net) :
  More.same_host w w' -> Spec.punkt_present w' = Spec.punkt_present w.
Proof.
  intros (_ & Hd & Hp). unfold Spec.punkt_present. rewrite Hd, Hp.
  reflexivity.
Qed.

Lemma link_event_not_fetch (ev : event) :
  Spec.is_link_event ev = true -> negb (Spec.is_fetch ev) = true.
Proof. destruct ev; simpl; congruence. Qed.

Lemma cleanup_event_not_fetch (ev : event) :
  Spec.is_cleanup_event ev = true -> negb (Spec.is_fetch ev) = true.
Proof. unfold Spec.is_cleanup_event. destruct ev; simpl; congruence. Qed.

Lemma punkt_dir_agree (w : World Net) :
  More.punkt_dir w
  = os_path_join (More.nltk_data_dir w) (lit "tokenizers/punkt").
Proof. apply punkt_path_agree. Qed.

(** The disk after the check: nothing is gone, and what is new is the
    tokenizer directory and what the downloader left. *)
Lemma ensure_punkt_disk (w : World Net) r w1 check :
  ensure_punkt (More.nltk_data_dir w)
    (mkWorld (module_dir w) (disk w)
             (More.nltk_data_dir w :: nltk_search_path w) (net w))
  = (r, w1, check) ->
  module_dir w1 = module_dir w
  /\ nltk_search_path w1 = More.nltk_data_dir w :: nltk_search_path w
  /\ disk w ⊆ disk w1
  /\ disk w1 ⊆ {[ More.punkt_dir w ]}
               ∪ (nltk_leaves (lit "punkt") (More.nltk_data_dir w) (net w)
                  ∪ disk w)
  /\ (List.filter Spec.is_fetch check = [] -> disk w1 = disk w).
Proof.
  intros Hcheck. rewrite punkt_dir_agree.
  destruct (ensure_punkt_world _ _ _ _ _ Hcheck)
    as [(_ & -> & ->)|(_ & -> & ->)].
  - cbn [module_dir nltk_search_path disk].
    split; [reflexivity|]. split; [reflexivity|]. split; [reflexivity|].
    split; [|reflexivity].
    etransitivity; [apply union_subseteq_r|apply union_subseteq_r].
  - unfold Spec.after_download. cbn [module_dir nltk_search_path disk net].
    split; [reflexivity|]. split; [reflexivity|].
    destruct (fst (nltk_fetch (lit "punkt") (net w))).
    + split; [etransitivity; [apply union_subseteq_r|apply union_subseteq_r]|].
      split; [reflexivity|]. cbn. intros H. discriminate H.
    + split; [apply union_subseteq_r|].
      split; [apply union_subseteq_r|]. cbn. intros H. discriminate H.
Qed.

End HostWorld.

Section HostProperties.
Context {Net : Type} {extractor : ArticleExtractor Net}
        {remote : AssetRemote Net}.
Import ArticleContentExtractorNode.

(** X5.  The clean-up never shows in the report: with and without
    [clear_nltk_data] the same report comes back after the same events on
    the same network; the clean-up only adds its own events at the end. *)
Theorem report_ignores_cleanup (feed_links : pystr) (et es ex : bool)
    (w : World Net) :
  exists report w_off tr w_on cleanup,
    execute feed_links et es ex false w = (inr report, w_off, tr)
    /\ execute feed_links et es ex true w = (inr report, w_on, tr ++ cleanup)
    /\ net w_on = net w_off
    /\ forallb Spec.is_cleanup_event cleanup = true.
Proof.
  destruct (execute_steps feed_links et es ex w)
    as (w1 & check & blocks & w2 & loop & _ & _ & _ & Hclear).
  destruct (Hclear false) as (w_off & none & Hoff & _ & Hrun_off).
  destruct (Hclear true) as (w_on & cleanup & Hon & Hcl & Hrun_on).
  injection Hoff as <- <-.
  destruct (clear_punkt_world _ _ _ _ _ Hon) as (_ & _ & Hnet & _).
  rewrite app_nil_r in Hrun_off.
  exists (join nl blocks), w2,
    (EvPathInsert (More.nltk_data_dir w) :: check ++ loop), w_on, cleanup.
  split; [exact Hrun_off|]. split; [|split; [exact Hnet|exact Hcl]].
  rewrite Hrun_on. cbn [app]. rewrite <- !app_assoc. reflexivity.
Qed.

(** X6.  Every invocation puts the node's cache directory at the front of
    the search path of the process, whether it is there already or not,
    and leaves the rest of the path as it was. *)
Theorem search_path_grows (feed_links : pystr) (et es ex clear : bool)
    (w : World Net) r w' tr :
  execute feed_links et es ex clear w = (r, w', tr) ->
  nltk_search_path w' = More.nltk_data_dir w :: nltk_search_path w
  /\ module_dir w' = module_dir w.
Proof.
  destruct (execute_steps feed_links et es ex w)
    as (w1 & check & blocks & w2 & loop & Hcheck & Hloop & Hlink & Hclear).
  destruct (Hclear clear) as (w3 & cleanup & Hcl & _ & ->).
  intros [= _ <- _].
  pose proof (for_links_same_host _ _ _ _ _ _ _ _ _ Hloop) as (Hm2 & _ & Hp2).
  assert (H1 : nltk_search_path w1
               = More.nltk_data_dir w :: nltk_search_path w
               /\ module_dir w1 = module_dir w).
  { destruct (ensure_punkt_world _ _ _ _ _ Hcheck)
      as [(_ & -> & _)|(_ & -> & _)]; split; reflexivity. }
  destruct H1 as [Hp1 Hm1].
  destruct clear.
  - destruct (clear_punkt_world _ _ _ _ _ Hcl) as (Hm3 & Hp3 & _).
    split; congruence.
  - injection Hcl as <- _. split; congruence.
Qed.

(** X7.  Without clean-up an invocation removes nothing from the disk;
    what it adds is the tokenizer directory and what the downloader
    leaves, and when it fetched nothing the disk is as before. *)
Theorem disk_grows_without_cleanup (feed_links : pystr) (et es ex : bool)
    (w : World Net) r w' tr :
  execute feed_links et es ex false w = (r, w', tr) ->
  disk w ⊆ disk w'
  /\ disk w' ⊆ {[ More.punkt_dir w ]}
               ∪ (nltk_leaves (lit "punkt") (More.nltk_data_dir w) (net w)
                  ∪ disk w)
  /\ (List.filter Spec.is_fetch tr = [] -> disk w' = disk w).
Proof.
  destruct (execute_steps feed_links et es ex w)
    as (w1 & check & blocks & w2 & loop & Hcheck & Hloop & Hlink & Hclear).
  destruct (Hclear false) as (w3 & cleanup & Hcl & _ & ->).
  injection Hcl as <- <-. intros [= _ <- <-].
  pose proof (for_links_same_host _ _ _ _ _ _ _ _ _ Hloop) as (_ & Hd2 & _).
  destruct (ensure_punkt_disk _ _ _ _ Hcheck) as (_ & _ & Hlow & Hhigh & Hsame).
  rewrite Hd2. split; [exact Hlow|]. split; [exact Hhigh|].
  intros Hnone. apply Hsame.
  change (List.filter Spec.is_fetch (check ++ loop ++ []) = []) in Hnone.
  rewrite List.filter_app in Hnone. apply app_eq_nil in Hnone. apply Hnone.
Qed.

(** X8.  With clean-up every path that was on the disk and is neither
    the tokenizer directory of the node's cache nor below it is still
    there afterwards; and unless the clean-up says that the removal
    failed, the tokenizer directory is gone. *)
Theorem cleanup_removes_tokenizer (feed_links : pystr) (et es ex : bool)
    (w : World Net) r w' tr :
  execute feed_links et es ex true w = (r, w', tr) ->
  (forall p, p ∈ disk w -> More.below (More.punkt_dir w) p = false ->
             p ∈ disk w')
  /\ (forallb (fun ev => negb (Layout.is_clear_failure ev)) tr = true ->
      More.punkt_dir w ∉ disk w').
Proof.
  destruct (execute_steps feed_links et es ex w)
    as (w1 & check & blocks & w2 & loop & Hcheck & Hloop & Hlink & Hclear).
  destruct (Hclear true) as (w3 & cleanup & Hcl & _ & ->).
  intros [= _ <- <-]. rewrite punkt_dir_agree.
  pose proof (for_links_same_host _ _ _ _ _ _ _ _ _ Hloop) as (_ & Hd2 & _).
  destruct (ensure_punkt_disk _ _ _ _ Hcheck) as (_ & _ & Hlow & _).
  destruct (clear_punkt_world _ _ _ _ _ Hcl)
    as (_ & _ & _ & _ & Hkeep & Hgone).
  split.
  - intros p Hp Hout. apply Hkeep; [|exact Hout].
    rewrite Hd2. apply Hlow, Hp.
  - intros Hquiet. apply Hgone.
    change (forallb (fun ev => negb (Layout.is_clear_failure ev))
                    (check ++ loop ++ cleanup) = true) in Hquiet.
    apply no_failure_app, no_failure_app in Hquiet. exact Hquiet.
Qed.

(** X9.  With the tokenizer on the search path an invocation fetches
    nothing. *)
Theorem no_fetch_when_present (feed_links : pystr) (et es ex clear : bool)
    (w : World Net) r w' tr :
  Spec.punkt_present w = true ->
  execute feed_links et es ex clear w = (r, w', tr) ->
  List.filter Spec.is_fetch tr = [].
Proof.
  intros Hpresent.
  destruct (execute_steps feed_links et es ex w)
    as (w1 & check & blocks & w2 & loop & Hcheck & Hloop & Hlink & Hclear).
  destruct (Hclear clear) as (w3 & cleanup & _ & Hcl & ->).
  intros [= _ _ <-].
  destruct (ensure_punkt_world _ _ _ _ _ Hcheck)
    as [(_ & _ & ->)|(Habsent & _)].
  - cbn [List.filter Spec.is_fetch app].
    rewrite List.filter_app.
    rewrite (filter_none _ loop
               (forallb_weaken _ _ loop link_event_not_fetch Hlink)).
    rewrite (filter_none _ cleanup
               (forallb_weaken _ _ cleanup cleanup_event_not_fetch Hcl)).
    reflexivity.
  - unfold Spec.punkt_present in Habsent, Hpresent.
    cbn [nltk_search_path disk existsb] in Habsent.
    rewrite Hpresent, orb_true_r in Habsent. discriminate Habsent.
Qed.

End HostProperties.

Section CacheProperties.
Context {Net : Type} {extractor : ArticleExtractor Net}
        {remote : AssetRemote Net}.
Import ArticleContentExtractorNode.

Lemma punkt_present_insert (dir : pystr) (w : World Net) :
  Spec.punkt_present w = true ->
  Spec.punkt_present
    (mkWorld (module_dir w) (disk w) (dir :: nltk_search_path w) (net w))
  = true.
Proof.
  intros H. unfold Spec.punkt_present in *.
  cbn [nltk_search_path disk existsb]. rewrite H. apply orb_true_r.
Qed.

(** After an invocation without clean-up that found the tokenizer or
    fetched it, the tokenizer is on the search path. *)
Lemma present_after_invocation (feed_links : pystr) (et es ex : bool)
    (w : World Net) r w' tr :
  Spec.punkt_present w = true
  \/ fst (nltk_fetch (lit "punkt") (net w)) = true ->
  execute feed_links et es ex false w = (r, w', tr) ->
  Spec.punkt_present w' = true.
Proof.
  intros Hok.
  destruct (execute_steps feed_links et es ex w)
    as (w1 & check & blocks & w2 & loop & Hcheck & Hloop & Hlink & Hclear).
  destruct (Hclear false) as (w3 & cleanup & Hcl & _ & ->).
  injection Hcl as <- _. intros [= _ <- _].
  rewrite (punkt_present_same_host w1 w2
             (for_links_same_host _ _ _ _ _ _ _ _ _ Hloop)).
  destruct (ensure_punkt_world _ _ _ _ _ Hcheck)
    as [(Hp & -> & _)|(Habsent & -> & _)]; [exact Hp|].
  destruct Hok as [Hpresent|Hfetch].
  - rewrite (punkt_present_insert _ w Hpresent) in Habsent.
    discriminate Habsent.
  - apply ensure_punkt_fetched; [left; reflexivity|exact Hfetch].
Qed.

(** An invocation that finds the tokenizer, with the node's cache
    directory in front of the search path, has no fetch among its
    events. *)
Lemma found_then_no_fetch (feed_links : pystr) (et es ex clear : bool)
    (w : World Net) r w' tr :
  Spec.punkt_present
    (mkWorld (module_dir w) (disk w)
             (More.nltk_data_dir w :: nltk_search_path w) (net w)) = true ->
  execute feed_links et es ex clear w = (r, w', tr) ->
  List.filter Spec.is_fetch tr = [].
Proof.
  intros Hfound.
  destruct (execute_steps feed_links et es ex w)
    as (w1 & check & blocks & w2 & loop & Hcheck & Hloop & Hlink & Hclear).
  destruct (Hclear clear) as (w3 & cleanup & _ & Hcl & ->).
  intros [= _ _ <-].
  destruct (ensure_punkt_world _ _ _ _ _ Hcheck)
    as [(_ & _ & ->)|(Habsent & _)]; [|congruence].
  cbn [List.filter Spec.is_fetch app]. rewrite List.filter_app.
  rewrite (filter_none _ loop
             (forallb_weaken _ _ loop link_event_not_fetch Hlink)).
  rewrite (filter_none _ cleanup
             (forallb_weaken _ _ cleanup cleanup_event_not_fetch Hcl)).
  reflexivity.
Qed.

(** The host after an invocation with clean-up. *)
(** The host after an invocation whose clean-up did not fail. *)
Lemma host_after_cleanup (feed_links : pystr) (et es ex : bool)
    (w : World Net) r w' tr :
  execute feed_links et es ex true w = (r, w', tr) ->
  forallb (fun ev => negb (Layout.is_clear_failure ev)) tr = true ->
  module_dir w' = module_dir w
  /\ nltk_search_path w' = More.nltk_data_dir w :: nltk_search_path w
  /\ (forall p, p ∈ disk w' ->
                p ∈ nltk_leaves (lit "punkt") (More.nltk_data_dir w) (net w)
                    ∪ disk w
                /\ p <> More.punkt_dir w).
Proof.
  destruct (execute_steps feed_links et es ex w)
    as (w1 & check & blocks & w2 & loop & Hcheck & Hloop & Hlink & Hclear).
  destruct (Hclear true) as (w3 & cleanup & Hcl & _ & ->).
  intros [= _ <- <-] Hquiet.
  change (forallb (fun ev => negb (Layout.is_clear_failure ev))
                  (check ++ loop ++ cleanup) = true) in Hquiet.
  apply no_failure_app, no_failure_app in Hquiet.
  pose proof (for_links_same_host _ _ _ _ _ _ _ _ _ Hloop)
    as (Hm2 & Hd2 & Hp2).
  destruct (ensure_punkt_disk _ _ _ _ Hcheck) as (Hm1 & Hp1 & _ & Hhigh & _).
  destruct (clear_punkt_world _ _ _ _ _ Hcl)
    as (Hm3 & Hp3 & _ & Hsub & _ & Hgone).
  specialize (Hgone Hquiet). rewrite <- punkt_dir_agree in Hgone.
  split; [congruence|]. split; [congruence|].
  intros p Hp. assert (Hne : p <> More.punkt_dir w) by congruence.
  split; [|exact Hne].
  pose proof (Hsub p Hp) as Hp2'. rewrite Hd2 in Hp2'.
  apply Hhigh, elem_of_union in Hp2'. destruct Hp2' as [Hp2'|Hp2']; [|exact Hp2'].
  apply elem_of_singleton in Hp2'. contradiction.
Qed.

(** X10.  The cache works across invocations: after an invocation without
    clean-up that found the tokenizer or fetched it, the next invocation
    fetches nothing. *)
Theorem second_invocation_no_fetch (feed_links : pystr) (et es ex : bool)
    (w : World Net) r1 w1 t1
    (feed_links' : pystr) (et' es' ex' clear' : bool) r2 w2 t2 :
  Spec.punkt_present w = true
  \/ fst (nltk_fetch (lit "punkt") (net w)) = true ->
  execute feed_links et es ex false w = (r1, w1, t1) ->
  execute feed_links' et' es' ex' clear' w1 = (r2, w2, t2) ->
  List.filter Spec.is_fetch t2 = [].
Proof.
  intros Hok Hfirst Hsecond.
  pose proof (present_after_invocation _ _ _ _ _ _ _ _ Hok Hfirst) as Hpresent.
  apply (punkt_present_insert (More.nltk_data_dir w1)) in Hpresent.
  exact (found_then_no_fetch _ _ _ _ _ _ _ _ _ Hpresent Hsecond).
Qed.

(** X11.  The clean-up undoes the cache: when the only tokenizer the
    search path can reach is the one in the node's cache, an invocation
    with clean-up that did not say the removal failed makes the next
    invocation fetch the tokenizer again. *)
Theorem cleanup_forces_refetch (feed_links : pystr) (et es ex : bool)
    (w : World Net) r1 w1 t1
    (feed_links' : pystr) (et' es' ex' clear' : bool) r2 w2 t2 :
  (forall d, In d (nltk_search_path w) ->
             os_path_join d Spec.punkt
             ∈ nltk_leaves (lit "punkt") (More.nltk_data_dir w) (net w)
               ∪ disk w ->
             os_path_join d Spec.punkt = More.punkt_dir w) ->
  execute feed_links et es ex true w = (r1, w1, t1) ->
  forallb (fun ev => negb (Layout.is_clear_failure ev)) t1 = true ->
  execute feed_links' et' es' ex' clear' w1 = (r2, w2, t2) ->
  In (EvFetch (lit "punkt") (More.nltk_data_dir w)) t2.
Proof.
  intros Honly Hfirst Hquiet Hsecond.
  destruct (host_after_cleanup _ _ _ _ _ _ _ _ Hfirst Hquiet)
    as (Hmod & Hpath & Hdisk).
  assert (Hdir : More.nltk_data_dir w1 = More.nltk_data_dir w).
  { unfold More.nltk_data_dir. rewrite Hmod. reflexivity. }
  destruct (execute_steps feed_links' et' es' ex' w1)
    as (w1' & check & blocks & w2' & loop & Hcheck & _ & _ & Hclear).
  destruct (Hclear clear') as (w3 & cleanup & _ & _ & Hrun).
  rewrite Hrun in Hsecond. injection Hsecond as _ _ <-.
  rewrite Hdir in *.
  destruct (ensure_punkt_world _ _ _ _ _ Hcheck)
    as [(Hpresent & _)|(_ & _ & ->)].
  - exfalso. unfold Spec.punkt_present in Hpresent.
    cbn [nltk_search_path disk] in Hpresent.
    apply existsb_exists in Hpresent.
    destruct Hpresent as (d & Hd & Hin).
    apply bool_decide_eq_true in Hin.
    destruct (Hdisk _ Hin) as [Hold Hne]. apply Hne.
    rewrite Hpath in Hd.
    destruct Hd as [<-|[<-|Hd]];
      try (symmetry; apply punkt_dir_agree).
    apply (Honly d Hd Hold).
  - right. right. right. left. reflexivity.
Qed.

Lemma existsb_nonblank_split (s : pystr) :
  existsb Spec.nonblank (split 10 s) = Spec.nonblank s.
Proof.
  induction s as [|c s IH]; [reflexivity|].
  cbn [split]. destruct (c =? 10) eqn:Hc.
  - apply N.eqb_eq in Hc. subst c. cbn [existsb]. rewrite IH. reflexivity.
  - destruct (split 10 s) as [|piece pieces] eqn:Hs.
    + exfalso. apply (split_not_nil s Hs).
    + change (Spec.nonblank (c :: piece) || existsb Spec.nonblank pieces
              = negb (isspace c) || Spec.nonblank s).
      change (Spec.nonblank (c :: piece))
        with (negb (isspace c) || Spec.nonblank piece).
      rewrite <- IH, <- orb_assoc. reflexivity.
Qed.

(** No line is left exactly when the input has no visible character. *)
Lemma nonblank_lines_nil (s : pystr) :
  Spec.nonblank_lines s = [] <-> Spec.nonblank s = false.
Proof.
  rewrite <- existsb_nonblank_split. unfold Spec.nonblank_lines.
  induction (split 10 s) as [|piece pieces IH]; [split; reflexivity|].
  cbn [List.filter existsb].
  destruct (Spec.nonblank piece); [split; discriminate|exact IH].
Qed.

(** X12.  The report is the empty string exactly when the input has no
    visible character, that is, when none of its lines is non-blank. *)
Theorem report_empty_iff (feed_links : pystr) (et es ex clear : bool)
    (w : World Net) report w' tr :
  execute feed_links et es ex clear w = (inr report, w', tr) ->
  (report = [] <-> Spec.nonblank feed_links = false)
  /\ (report = [] <-> Spec.nonblank_lines feed_links = []).
Proof.
  destruct (execute_run feed_links et es ex clear w)
    as (blocks & w0 & check & loop & cleanup & -> & _ & _ & Hblocks & _).
  intros [= <- _ _].
  assert (H : join nl blocks = [] <-> Spec.nonblank_lines feed_links = []).
  { destruct Hblocks as [|link b links blocks Hb _].
    - split; reflexivity.
    - destruct (block_shape _ _ _ _ _ Hb) as (c & body & -> & _).
      rewrite join_cons. split; discriminate. }
  split; [|exact H].
  rewrite H. apply nonblank_lines_nil.
Qed.

(** X13.  The steps for a link run in the order download, parse,
    summarize and stop at the first that raises: [download()] is always
    called, [parse()] exactly when [download()] returned, and [nlp()]
    exactly when summaries are asked for and [parse()] returned. *)
Theorem link_steps_in_order (et es ex : bool) (link : pystr)
    (w : World Net) r w' tr :
  process_link et es ex link w = (r, w', tr) ->
  tr `prefix_of` [EvDownload link; EvParse link; EvNlp link]
  /\ In (EvDownload link) tr
  /\ (In (EvParse link) tr <->
      exists html, fst (article_download link (net w)) = inr html)
  /\ (In (EvNlp link) tr <->
      es = true
      /\ exists html a, fst (article_download link (net w)) = inr html
                        /\ article_parse html = inr a).
Proof.
  unfold process_link, bind, download, parse, nlp, ret.
  destruct (article_download link (net w)) as [[e|html] n'].
  { intros [= _ _ <-]. cbn [fst].
    split; [exists [EvParse link; EvNlp link]; reflexivity|].
    split; [left; reflexivity|]. split; split.
    - intros [H|[]]; discriminate H.
    - intros (html & H). discriminate H.
    - intros [H|[]]; discriminate H.
    - intros (_ & html & a & H & _). discriminate H. }
  destruct (article_parse html) as [e|a] eqn:Hparse.
  { intros [= _ _ <-]. cbn [fst app].
    split; [exists [EvNlp link]; reflexivity|].
    split; [left; reflexivity|]. split; split.
    - intros _. exists html. reflexivity.
    - intros _. right. left. reflexivity.
    - intros [H|[H|[]]]; discriminate H.
    - intros (_ & html0 & a & [= <-] & Ha). congruence. }
  destruct es.
  - assert (Hall : [EvDownload link] ++ [EvParse link] ++ [EvNlp link]
                   `prefix_of` [EvDownload link; EvParse link; EvNlp link]
                   /\ In (EvDownload link)
                         ([EvDownload link] ++ [EvParse link] ++ [EvNlp link])
                   /\ (In (EvParse link)
                          ([EvDownload link] ++ [EvParse link] ++ [EvNlp link])
                       <-> exists html0, inr (A := exn) html = inr html0)
                   /\ (In (EvNlp link)
                          ([EvDownload link] ++ [EvParse link] ++ [EvNlp link])
                       <-> true = true
                           /\ exists html0 a0,
                                inr (A := exn) html = inr html0
                                /\ article_parse html0 = inr a0)).
    { split; [exists []; reflexivity|]. split; [left; reflexivity|].
      split; split.
      + intros _. exists html. reflexivity.
      + intros _. right. left. reflexivity.
      + intros _. split; [reflexivity|]. exists html, a.
        split; [reflexivity|exact Hparse].
      + intros _. right. right. left. reflexivity. }
    cbn [nltk_search_path disk].
    destruct (article_nlp a (nltk_search_path w) (disk w)) as [e|summary];
      intros [= _ _ <-]; cbn [fst]; rewrite ?app_nil_r; exact Hall.
  - intros [= _ _ <-]. cbn [fst app].
    split; [exists [EvNlp link]; reflexivity|].
    split; [left; reflexivity|]. split; split.
    + intros _. exists html. reflexivity.
    + intros _. right. left. reflexivity.
    + intros [H|[H|[]]]; discriminate H.
    + intros (H & _). discriminate H.
Qed.

End CacheProperties.

Section FeedProperties.
Context {Net : Type} {http : HttpClient Net} {xml : XmlLibrary}.
Import RSSFeedParserNode.

Lemma replace_from_sublist (old : pystr) (s : pystr) :
  forall k, replace_from old [] k s `sublist_of` s.
Proof.
  induction s as [|c s IH]; intros k; [destruct k; constructor|].
  destruct k as [|k]; cbn [replace_from].
  - destruct (startswith (c :: s) old).
    + cbn [app]. apply sublist_cons, IH.
    + apply sublist_skip, IH.
  - apply sublist_cons, IH.
Qed.

(** X14.  Removing the declaration only deletes characters: the text handed
    to the parser is the decoded body with some characters left out, in
    the same order, and never longer than the body. *)
Theorem xml_content_sublist (r : response) :
  xml_content r `sublist_of` decode (Some (lit "utf-8")) (content r)
  /\ (length (xml_content r)
      <= length (decode (Some (lit "utf-8")) (content r)))%nat.
Proof.
  assert (H : xml_content r `sublist_of` decode (Some (lit "utf-8")) (content r)).
  { rewrite xml_content_replace.
    destruct xml_declaration_cons as (old & ->).
    apply replace_from_sublist. }
  split; [exact H|]. apply sublist_length, H.
Qed.

Lemma comprehension_inr {A B} (f : A -> exn + B) (l : list A) :
  forall ys,
    comprehension f l = inr ys <-> Forall2 (fun x y => f x = inr y) l ys.
Proof.
  induction l as [|x l IH]; intros ys.
  - split.
    + intros [= <-]. constructor.
    + intros H. inversion H. reflexivity.
  - cbn [comprehension]. split.
    + destruct (f x) as [e|y] eqn:Hx; [discriminate|].
      destruct (comprehension f l) as [e|ys'] eqn:Hl; [discriminate|].
      intros [= <-]. constructor; [exact Hx|]. apply IH. reflexivity.
    + intros H. inversion H as [|? y ? ys' Hx Hl]; subst.
      rewrite Hx. apply IH in Hl. rewrite Hl. reflexivity.
Qed.

Lemma checked_items_inr (items : list (option pystr)) :
  forall i ss, checked_items i items = inr ss <-> items = map Some ss.
Proof.
  induction items as [|[s|] items IH]; intros i ss.
  - split.
    + intros [= <-]. reflexivity.
    + destruct ss; [reflexivity|discriminate].
  - cbn [checked_items]. split.
    + destruct (checked_items (S i) items) as [e|ss'] eqn:H; [discriminate|].
      intros [= <-]. apply IH in H. rewrite H. reflexivity.
    + destruct ss as [|s' ss]; [discriminate|].
      intros [= -> H]. apply (IH (S i)) in H. rewrite H. reflexivity.
  - cbn [checked_items]. split; [discriminate|].
    destruct ss; discriminate.
Qed.

Lemma Forall2_map_some {A} (f : A -> exn + option pystr) (l : list A)
    (ss : list pystr) :
  Forall2 (fun x y => f x = inr y) l (map Some ss)
  <-> Forall2 (fun x s => f x = inr (Some s)) l ss.
Proof.
  revert ss. induction l as [|x l IH]; intros ss.
  - split; intros H; destruct ss; inversion H; constructor.
  - split; intros H; destruct ss as [|s ss]; inversion H; subst;
      constructor; try assumption; apply IH; assumption.
Qed.

(** X15.  With an ElementPath that refuses the attribute step of the
    path, as lxml's does with [KeyError('@')] for every entry, stage 1
    gives links for no Atom feed: a document without entries gives the
    empty string, and a document with an entry gives the error text for
    the whole feed. *)
Theorem atom_feed_under_lxml (feed_url : pystr) (timeout : Z) (n : Net)
    (r : response) (n' : Net) (root : Xml.element) :
  (forall entry,
     findtext_alternate_href entry = inl (Exn KeyError (lit "'@'"))) ->
  requests_get feed_url timeout n = (inr r, n') ->
  raise_for_status r = inr tt ->
  etree_parse (xml_content r) = inr root ->
  Xml.tag root <> lit "rss" ->
  startswith (Xml.tag root) (lit "{" ++ atom_ns ++ lit "}") = true ->
  execute feed_url timeout n
  = (match Xml.findall_descendants (Spec.atom_tag "entry") root with
     | [] => []
     | _ :: _ => lit "Error parsing feed: '@'"
     end, n').
Proof.
  intros Hpath Hget Hst Hx Hrss Hatom.
  unfold execute, execute_try, links_text, extract_links.
  rewrite Hget, Hst, Hx, (bool_decide_eq_false_2 _ Hrss), Hatom.
  unfold parse_atom.
  change (lit "{" ++ atom_ns ++ lit "}entry") with (Spec.atom_tag "entry").
  destruct (Xml.findall_descendants (Spec.atom_tag "entry") root)
    as [|entry entries]; [reflexivity|].
  cbn [comprehension]. rewrite (Hpath entry). reflexivity.
Qed.

(** X16.  A feed without links gives the empty string: an RSS document in
    which no item has a [link] child, or an Atom document without
    entries, whatever ElementPath does. *)
Theorem feed_without_links (r : response) (root : Xml.element) :
  raise_for_status r = inr tt ->
  etree_parse (xml_content r) = inr root ->
  (Xml.tag root = lit "rss" /\ Spec.rss_links root = [])
  \/ (startswith (Xml.tag root) (lit "{" ++ atom_ns ++ lit "}") = true
      /\ Xml.findall_descendants (Spec.atom_tag "entry") root = []) ->
  links_text r = inr [].
Proof.
  intros Hst Hx H. unfold links_text, extract_links. rewrite Hst, Hx.
  destruct H as [[Hrss Hnone]|[Hatom Hnone]].
  - rewrite Hrss, parse_rss_links, Hnone. reflexivity.
  - destruct (bool_decide (Xml.tag root = lit "rss")) eqn:Hrss.
    + apply bool_decide_eq_true in Hrss. rewrite Hrss in Hatom.
      discriminate Hatom.
    + rewrite Hatom. unfold parse_atom.
      change (lit "{" ++ atom_ns ++ lit "}entry") with (Spec.atom_tag "entry").
      rewrite Hnone. reflexivity.
Qed.

End FeedProperties.

(** ** The layout of the report *)
Section LineFacts.

Lemma lines_text_cons (t : pystr) (ts : list pystr) :
  ts <> [] -> Layout.lines_text (t :: ts) = t ++ 10 :: Layout.lines_text ts.
Proof. destruct ts as [|u us]; [congruence|]. intros _. reflexivity. Qed.

(** A text is its pieces put one per line. *)
Lemma split_lines_text (s : pystr) : Layout.lines_text (split 10 s) = s.
Proof.
  induction s as [|c s IH]; [reflexivity|].
  cbn [split]. destruct (c =? 10) eqn:Hc.
  - apply N.eqb_eq in Hc. subst c.
    rewrite lines_text_cons by apply split_not_nil. rewrite IH. reflexivity.
  - destruct (split 10 s) as [|piece pieces] eqn:Hs.
    + exfalso. apply (split_not_nil s Hs).
    + rewrite <- IH. reflexivity.
Qed.

(** The lines of a text are its pieces. *)
Lemma lines_text_split (raw : list pystr) :
  Forall (fun line => More.no_newline line = true) raw ->
  raw <> [] -> split 10 (Layout.lines_text raw) = raw.
Proof.
  induction 1 as [|t ts Ht Hts IH]; [congruence|]. intros _.
  destruct ts as [|u us].
  - cbn [Layout.lines_text flat_map]. rewrite app_nil_r.
    apply split_one_line, Ht.
  - rewrite lines_text_cons by discriminate.
    rewrite (split_app_newline _ _ Ht), IH by discriminate. reflexivity.
Qed.

Lemma join_lines_text (l : list pystr) : join nl l = Layout.lines_text l.
Proof. destruct l as [|x l]; [reflexivity|]. apply join_cons. Qed.

Lemma lstrip_split (s : pystr) :
  exists before, s = before ++ lstrip s /\ forallb isspace before = true.
Proof.
  induction s as [|c s (before & Hs & Hb)].
  - exists []. split; reflexivity.
  - cbn [lstrip]. destruct (isspace c) eqn:Hc.
    + exists (c :: before). split; [cbn [app]; f_equal; exact Hs|].
      cbn [forallb]. rewrite Hc, Hb. reflexivity.
    + exists []. split; reflexivity.
Qed.

Lemma forallb_rev (f : char -> bool) (s : pystr) :
  forallb f s = true -> forallb f (rev s) = true.
Proof.
  rewrite !forallb_forall. intros H c Hc. apply H, in_rev, Hc.
Qed.

Lemma rstrip_split (s : pystr) :
  exists after, s = rstrip s ++ after /\ forallb isspace after = true.
Proof.
  destruct (lstrip_split (rev s)) as (before & Hs & Hb).
  exists (rev before). split; [|apply forallb_rev, Hb].
  unfold rstrip. rewrite <- rev_app_distr, <- Hs, rev_involutive.
  reflexivity.
Qed.

(** A line with a visible character is its link with whitespace
    around. *)
Lemma strip_trim_of (line : pystr) :
  Spec.nonblank line = true -> Layout.trim_of line (strip line).
Proof.
  intros Hline.
  destruct (lstrip_split line) as (before & Hl & Hb).
  destruct (rstrip_split (lstrip line)) as (after & Hr & Ha).
  exists before, after. split; [|split; [exact Hb|split; [exact Ha|]]].
  - unfold strip. rewrite <- Hr. exact Hl.
  - apply strip_trimmed. rewrite strip_truthy. exact Hline.
Qed.

Lemma links_trim_of (raw : list pystr) :
  Forall2 Layout.trim_of (List.filter Spec.nonblank raw)
          (map strip (List.filter Spec.nonblank raw)).
Proof.
  induction raw as [|line raw IH]; [constructor|].
  cbn [List.filter]. destruct (Spec.nonblank line) eqn:Hline; [|exact IH].
  constructor; [apply strip_trim_of, Hline|exact IH].
Qed.

(** The lines of the input and the links stage 2 takes from them. *)
Lemma input_lines (feed_links : pystr) :
  exists raw,
    feed_links = Layout.lines_text raw
    /\ Forall (fun line => More.no_newline line = true) raw
    /\ Spec.nonblank_lines feed_links
       = map strip (List.filter Spec.nonblank raw)
    /\ Forall2 Layout.trim_of (List.filter Spec.nonblank raw)
               (Spec.nonblank_lines feed_links).
Proof.
  exists (split 10 feed_links).
  split; [symmetry; apply split_lines_text|].
  split; [apply split_no_newline|].
  split; [reflexivity|apply links_trim_of].
Qed.

(** The lines of a text are determined by the text. *)
Lemma lines_unique (s : pystr) (raw : list pystr) :
  s = Layout.lines_text raw ->
  Forall (fun line => More.no_newline line = true) raw ->
  List.filter Spec.nonblank raw = List.filter Spec.nonblank (split 10 s).
Proof.
  intros -> Hraw. destruct raw as [|t ts]; [reflexivity|].
  rewrite lines_text_split; [reflexivity|exact Hraw|discriminate].
Qed.

End LineFacts.

Section ReportLayout.
Context {Net : Type} {extractor : ArticleExtractor Net}
        {remote : AssetRemote Net}.
Import ArticleContentExtractorNode.

Lemma error_block_text (link : pystr) (e : exn) :
  error_block link e = Layout.error_text link (exn_str e).
Proof. reflexivity. Qed.

Lemma batch_processed (et es ex : bool) (w : World Net)
    (links blocks : list pystr) (w' : World Net) :
  Spec.batch et es ex w links blocks w' ->
  Layout.processed et es ex w links blocks w'.
Proof.
  induction 1 as [w|w link [e|content] w1 tr rest blocks w2 Hrun _ IH].
  - constructor.
  - change (Spec.outcome_block link (inl e))
      with (Layout.error_text link (exn_str e)).
    eapply Layout.processed_raised; eassumption.
  - eapply Layout.processed_ok; eassumption.
Qed.

(** A block starts with a visible character and ends with a line feed,
    the line of fifty dashes and a line feed. *)
Lemma block_line_shape (et es ex : bool) (link b : pystr) :
  Spec.block_of et es ex link b ->
  exists c body,
    b = c :: body ++ 10 :: Spec.dashes ++ [10] /\ isspace c = false.
Proof.
  intros [(msg & ->)|(a & summary & ->)].
  - exists 69, (lit "rror processing " ++ link ++ lit ": " ++ msg).
    split; [same_text|reflexivity].
  - destruct ex.
    + exists 85,
        (lit "RL: " ++ link ++ nl
         ++ (if et then title_line a else [])
         ++ (if es then summary_line summary else [])
         ++ lit "Text: " ++ take 500 (text a) ++ lit "...").
      split; [destruct et, es; same_text|reflexivity].
    + destruct es.
      * exists 85,
          (lit "RL: " ++ link ++ nl
           ++ (if et then title_line a else [])
           ++ lit "Summary: " ++ summary).
        split; [destruct et; same_text|reflexivity].
      * destruct et.
        -- exists 85, (lit "RL: " ++ link ++ nl ++ lit "Title: " ++ title a).
           split; [same_text|reflexivity].
        -- exists 85, (lit "RL: " ++ link).
           split; [same_text|reflexivity].
Qed.

Lemma blocks_line_shape (et es ex : bool) (links blocks : list pystr) :
  Forall2 (Spec.block_of et es ex) links blocks ->
  Forall (fun b => exists c body,
            b = c :: body ++ 10 :: Spec.dashes ++ [10]
            /\ isspace c = false) blocks.
Proof.
  induction 1 as [|link b links blocks Hb _ IH]; constructor.
  - apply (block_line_shape et es ex link b Hb).
  - exact IH.
Qed.

Lemma lines_text_seam (x y : pystr) (pre post : list pystr) :
  Layout.lines_text (pre ++ x :: y :: post)
  = flat_map (fun b => b ++ [10]) pre ++ x ++ 10 :: y
    ++ flat_map (fun b => 10 :: b) post.
Proof. rewrite <- join_lines_text. apply (join_seam nl). Qed.

(** One run of stage 2 over the lines of its input. *)
Lemma execute_lines (feed_links : pystr) (et es ex clear : bool)
    (w : World Net) :
  exists raw links blocks w1 check w2 w' loop cleanup,
    feed_links = Layout.lines_text raw
    /\ Forall (fun line => More.no_newline line = true) raw
    /\ Forall2 Layout.trim_of (List.filter Spec.nonblank raw) links
    /\ ensure_punkt (More.nltk_data_dir w)
         (mkWorld (module_dir w) (disk w)
                  (More.nltk_data_dir w :: nltk_search_path w) (net w))
       = (inr tt, w1, check)
    /\ Layout.processed et es ex w1 links blocks w2
    /\ Forall2 (Spec.block_of et es ex) links blocks
    /\ execute feed_links et es ex clear w
       = (inr (Layout.lines_text blocks), w',
          EvPathInsert (More.nltk_data_dir w) :: check ++ loop ++ cleanup)
    /\ Spec.downloads check = []
    /\ Spec.downloads loop = links
    /\ Spec.downloads cleanup = [].
Proof.
  destruct (input_lines feed_links) as (raw & Hraw & Hnl & _ & Htrim).
  destruct (execute_steps feed_links et es ex w)
    as (w1 & check & blocks & w2 & loop & Hcheck & Hloop & _ & Hclear).
  destruct (Hclear clear) as (w3 & cleanup & _ & Hclean & Hrun).
  destruct (for_links_blocks et es ex (links_of feed_links) [] w1)
    as (blocks' & w2' & loop' & Hloop' & Hbatch & Hblocks & _ & Hdl & _).
  rewrite Hloop in Hloop'. injection Hloop' as <- <- <-.
  rewrite links_of_nonblank_lines in Hbatch, Hblocks, Hdl.
  exists raw, (Spec.nonblank_lines feed_links), blocks, w1, check, w2, w3,
         loop, cleanup.
  split; [exact Hraw|]. split; [exact Hnl|]. split; [exact Htrim|].
  split; [exact Hcheck|]. split; [apply batch_processed, Hbatch|].
  split; [exact Hblocks|].
  split; [rewrite <- join_lines_text; exact Hrun|].
  split; [|split; [exact Hdl|]].
  - destruct (ensure_punkt_runs (More.nltk_data_dir w)
                (mkWorld (module_dir w) (disk w)
                         (More.nltk_data_dir w :: nltk_search_path w) (net w)))
      as (w1' & check' & Hcheck' & Hev).
    rewrite Hcheck in Hcheck'. injection Hcheck' as _ <-.
    apply downloads_none, (check_has_no_link_event _ _ Hev).
  - apply downloads_none, cleanup_has_no_link_event, Hclean.
Qed.

(** C1.  With the input read as lines (texts without a line feed, put
    one per line), stage 2 returns a report of exactly one block per line
    that has a visible character, in the order of the lines: the links
    are those lines without the whitespace around them, each is
    downloaded once and in turn, and the blocks are put one per line.  A
    link whose processing raises gets the block
    "Error processing <url>: <message>" followed by the separator line,
    where the message is the text of the exception and may itself span
    several lines; the link after it is processed all the same, from the
    world the failed link left. *)
Theorem report_one_block_per_line (feed_links : pystr)
    (et es ex clear : bool) (w : World Net) :
  exists raw links blocks w1 check w2 w' tr,
    feed_links = Layout.lines_text raw
    /\ Forall (fun line => More.no_newline line = true) raw
    /\ Forall2 Layout.trim_of (List.filter Spec.nonblank raw) links
    /\ ensure_punkt (More.nltk_data_dir w)
         (mkWorld (module_dir w) (disk w)
                  (More.nltk_data_dir w :: nltk_search_path w) (net w))
       = (inr tt, w1, check)
    /\ Layout.processed et es ex w1 links blocks w2
    /\ execute feed_links et es ex clear w
       = (inr (Layout.lines_text blocks), w', tr)
    /\ length blocks = length (List.filter Spec.nonblank raw)
    /\ Spec.downloads tr = links.
Proof.
  destruct (execute_lines feed_links et es ex clear w)
    as (raw & links & blocks & w1 & check & w2 & w' & loop & cleanup
        & Hraw & Hnl & Htrim & Hcheck & Hproc & Hblocks & Hrun
        & Hd1 & Hd2 & Hd3).
  eexists raw, links, blocks, w1, check, w2, w', _.
  split; [exact Hraw|]. split; [exact Hnl|]. split; [exact Htrim|].
  split; [exact Hcheck|]. split; [exact Hproc|]. split; [exact Hrun|].
  split.
  - rewrite <- (Forall2_length _ _ _ Hblocks).
    symmetry. apply (Forall2_length _ _ _ Htrim).
  - change (Spec.downloads (check ++ loop ++ cleanup) = links).
    rewrite !downloads_app, Hd1, Hd2, Hd3. apply app_nil_r.
Qed.

(** C10.  Every block of the report starts with a visible character and
    ends with a line feed, the line of fifty dashes and a line feed; the
    blocks are put one per line, so that between the dashes of a block
    and the first character of the next block there are exactly two line
    feeds, that is one empty line; an input without a visible character
    gives the empty string. *)
Theorem report_layout (feed_links : pystr) (et es ex clear : bool)
    (w : World Net) :
  exists raw blocks w' tr,
    feed_links = Layout.lines_text raw
    /\ Forall (fun line => More.no_newline line = true) raw
    /\ execute feed_links et es ex clear w
       = (inr (Layout.lines_text blocks), w', tr)
    /\ length blocks = length (List.filter Spec.nonblank raw)
    /\ Forall (fun b => exists c body,
                 b = c :: body ++ 10 :: Spec.dashes ++ [10]
                 /\ isspace c = false)
              blocks
    /\ (forall pre b1 b2 post,
          blocks = pre ++ b1 :: b2 :: post ->
          exists body1 c rest2,
            b1 = body1 ++ 10 :: Spec.dashes ++ [10]
            /\ b2 = c :: rest2 /\ isspace c = false
            /\ Layout.lines_text blocks
               = flat_map (fun b => b ++ [10]) pre
                 ++ body1 ++ 10 :: Spec.dashes ++ [10; 10] ++ c :: rest2
                 ++ flat_map (fun b => 10 :: b) post)
    /\ (Spec.nonblank feed_links = false -> Layout.lines_text blocks = []).
Proof.
  destruct (execute_lines feed_links et es ex clear w)
    as (raw & links & blocks & w1 & check & w2 & w' & loop & cleanup
        & Hraw & Hnl & Htrim & _ & _ & Hblocks & Hrun & _).
  eexists raw, blocks, w', _.
  split; [exact Hraw|]. split; [exact Hnl|]. split; [exact Hrun|].
  assert (Hlen : length blocks = length (List.filter Spec.nonblank raw)).
  { rewrite <- (Forall2_length _ _ _ Hblocks).
    symmetry. apply (Forall2_length _ _ _ Htrim). }
  split; [exact Hlen|].
  pose proof (blocks_line_shape _ _ _ _ _ Hblocks) as Hshape.
  split; [exact Hshape|]. split.
  - intros pre b1 b2 post ->.
    apply Forall_app in Hshape. destruct Hshape as [_ Hshape].
    inversion Hshape as [|? ? (c1 & body1 & -> & _) Hshape']; subst.
    inversion Hshape' as [|? ? (c2 & body2 & -> & Hc2) _]; subst.
    exists (c1 :: body1), c2, (body2 ++ 10 :: Spec.dashes ++ [10]).
    split; [reflexivity|]. split; [reflexivity|]. split; [exact Hc2|].
    rewrite lines_text_seam. cbn [app]. rewrite <- !app_assoc.
    reflexivity.
  - intros Hblank.
    rewrite (lines_unique _ _ Hraw Hnl) in Hlen.
    apply nonblank_lines_nil in Hblank. unfold Spec.nonblank_lines in Hblank.
    apply map_eq_nil in Hblank. rewrite Hblank in Hlen.
    destruct blocks; [reflexivity|discriminate Hlen].
Qed.

End ReportLayout.

(** ** The further properties in the concrete world *)
Section MoreRuns.
Import ArticleContentExtractorNode.

Lemma run_eta {A B C : Type} (x : A * B * C) :
  x = (fst (fst x), snd (fst x), snd x).
Proof. destruct x as [[a b] c]. reflexivity. Qed.

(** X2 at a concrete input. *)
Lemma links_of_join_witness :
  links_of (join nl [lit " http://news.example/1 "; lit "  ";
                     lit "http://news.example/2"])
  = [lit "http://news.example/1"; lit "http://news.example/2"].
Proof.
  rewrite links_of_join; [reflexivity|].
  repeat constructor.
Defined.

(** X6 at a concrete input. *)
Lemma search_path_grows_witness :
  nltk_search_path
    (snd (fst (execute (extractor := Demo.extractor) (remote := Demo.remote)
                 (lit "http://news.example/1") true true true false
                 Demo.cached)))
  = More.nltk_data_dir Demo.cached :: nltk_search_path Demo.cached.
Proof.
  destruct (execute (extractor := Demo.extractor) (remote := Demo.remote)
              (lit "http://news.example/1") true true true false Demo.cached)
    as [[r w'] tr] eqn:Hrun.
  exact (proj1 (search_path_grows (extractor := Demo.extractor)
                  (remote := Demo.remote) _ _ _ _ _ _ _ _ _ Hrun)).
Defined.

(** X7 at concrete inputs: with the tokenizer cached the disk is left
    as it was; on a fresh host what is added is the tokenizer directory
    and what the downloader leaves. *)
Lemma disk_grows_without_cleanup_witness :
  disk (snd (fst (execute (extractor := Demo.extractor)
                    (remote := Demo.remote)
                    (lit "http://news.example/1") true true true false
                    Demo.cached)))
  = disk Demo.cached
  /\ disk (snd (fst (execute (extractor := Demo.extractor)
                       (remote := Demo.remote)
                       (lit "http://news.example/1") true true true false
                       Demo.fresh)))
     ⊆ {[ More.punkt_dir Demo.fresh ]}
       ∪ (nltk_leaves (AssetRemote := Demo.remote) (lit "punkt")
            (More.nltk_data_dir Demo.fresh) (net Demo.fresh)
          ∪ disk Demo.fresh).
Proof.
  split.
  - apply (disk_grows_without_cleanup (extractor := Demo.extractor)
             (remote := Demo.remote) _ _ _ _ _ _ _ _ (run_eta _)).
    vm_compute. reflexivity.
  - apply (disk_grows_without_cleanup (extractor := Demo.extractor)
             (remote := Demo.remote) _ _ _ _ _ _ _ _ (run_eta _)).
Defined.

(** X8 at a concrete input: the user's file stays and the tokenizer
    directory goes. *)
Lemma cleanup_removes_tokenizer_witness :
  lit "/home/user/notes.txt"
  ∈ disk (snd (fst (execute (extractor := Demo.extractor)
                      (remote := Demo.remote)
                      (lit "http://news.example/1") true true true true
                      MoreDemo.stocked)))
  /\ (More.punkt_dir MoreDemo.stocked
      ∉ disk (snd (fst (execute (extractor := Demo.extractor)
                          (remote := Demo.remote)
                          (lit "http://news.example/1") true true true true
                          MoreDemo.stocked)))).
Proof.
  split.
  - apply (cleanup_removes_tokenizer (extractor := Demo.extractor)
             (remote := Demo.remote) _ _ _ _ _ _ _ _ (run_eta _)).
    + unfold MoreDemo.stocked. cbn [disk]. set_solver.
    + vm_compute. reflexivity.
  - apply (cleanup_removes_tokenizer (extractor := Demo.extractor)
             (remote := Demo.remote) _ _ _ _ _ _ _ _ (run_eta _)).
    vm_compute. reflexivity.
Defined.

(** When the removal fails the clean-up says so and the directory
    stays. *)
Example cleanup_failure_keeps_directory :
  forallb (fun ev => negb (Layout.is_clear_failure ev))
          (snd (execute (extractor := Demo.extractor)
                  (remote := MoreDemo.locked)
                  [] true false true true MoreDemo.stocked))
  = false
  /\ More.punkt_dir MoreDemo.stocked
     ∈ disk (snd (fst (execute (extractor := Demo.extractor)
                         (remote := MoreDemo.locked)
                         [] true false true true MoreDemo.stocked))).
Proof.
  split; [vm_compute; reflexivity|].
  apply (bool_decide_unpack _). vm_compute. exact I.
Qed.

(** X9 at a concrete input. *)
Lemma no_fetch_when_present_witness :
  Spec.punkt_present Demo.cached = true
  /\ List.filter Spec.is_fetch
       (snd (execute (extractor := Demo.extractor) (remote := Demo.remote)
               (lit "http://news.example/1") true true true false
               Demo.cached))
     = [].
Proof.
  assert (Hpresent : Spec.punkt_present Demo.cached = true)
    by (vm_compute; reflexivity).
  split; [exact Hpresent|].
  destruct (execute (extractor := Demo.extractor) (remote := Demo.remote)
              (lit "http://news.example/1") true true true false Demo.cached)
    as [[r w'] tr] eqn:Hrun.
  exact (no_fetch_when_present (extractor := Demo.extractor)
           (remote := Demo.remote) _ _ _ _ _ _ _ _ _ Hpresent Hrun).
Defined.

(** X10 at a concrete input. *)
Lemma second_invocation_no_fetch_witness :
  fst (nltk_fetch (AssetRemote := Demo.remote) (lit "punkt") (net Demo.fresh))
  = true
  /\ List.filter Spec.is_fetch
       (snd (execute (extractor := Demo.extractor) (remote := Demo.remote)
               (lit "http://news.example/3") true true true false
               (snd (fst (execute (extractor := Demo.extractor)
                            (remote := Demo.remote)
                            (lit "http://news.example/1") true true true false
                            Demo.fresh)))))
     = [].
Proof.
  split; [reflexivity|].
  destruct (execute (extractor := Demo.extractor) (remote := Demo.remote)
              (lit "http://news.example/1") true true true false Demo.fresh)
    as [[r1 w1] t1] eqn:Hfirst.
  cbn [fst snd].
  destruct (execute (extractor := Demo.extractor) (remote := Demo.remote)
              (lit "http://news.example/3") true true true false w1)
    as [[r2 w2] t2] eqn:Hsecond.
  exact (second_invocation_no_fetch (extractor := Demo.extractor)
           (remote := Demo.remote) _ _ _ _ _ _ _ _ _ _ _ _ _ _ _ _
           (or_intror eq_refl) Hfirst Hsecond).
Defined.

(** X11 at a concrete input. *)
Lemma cleanup_forces_refetch_witness :
  In (EvFetch (lit "punkt") (More.nltk_data_dir Demo.cached))
     (snd (execute (extractor := Demo.extractor) (remote := Demo.remote)
             (lit "http://news.example/3") true true true false
             (snd (fst (execute (extractor := Demo.extractor)
                          (remote := Demo.remote)
                          (lit "http://news.example/1") true true true true
                          Demo.cached))))).
Proof.
  refine (cleanup_forces_refetch (extractor := Demo.extractor)
            (remote := Demo.remote) _ _ _ _ Demo.cached _ _ _ _ _ _ _ _ _ _ _
            _ (run_eta _) _ (run_eta _)).
  - intros d [<-|[]] _. vm_compute. reflexivity.
  - vm_compute. reflexivity.
Defined.

(** X12 at concrete inputs: a blank input and an input with a link. *)
Lemma report_empty_iff_witness :
  fst (fst (execute (extractor := Demo.extractor) (remote := Demo.remote)
              (lit "  " ++ 10 :: lit " ") true true true false Demo.fresh))
  = inr []
  /\ fst (fst (execute (extractor := Demo.extractor) (remote := Demo.remote)
                 (lit " http://news.example/1") true true true false
                 Demo.fresh))
     <> inr [].
Proof.
  split.
  - destruct (execute (extractor := Demo.extractor) (remote := Demo.remote)
                (lit "  " ++ 10 :: lit " ") true true true false Demo.fresh)
      as [[[e|report] w'] tr] eqn:Hrun.
    + exfalso.
      destruct (execute_run (extractor := Demo.extractor)
                  (remote := Demo.remote)
                  (lit "  " ++ 10 :: lit " ") true true true false Demo.fresh)
        as (blocks & w0 & check & loop & cleanup & Hok & _).
      rewrite Hok in Hrun. discriminate Hrun.
    + cbn [fst]. f_equal.
      apply (report_empty_iff (extractor := Demo.extractor)
               (remote := Demo.remote) _ _ _ _ _ _ _ _ _ Hrun).
      reflexivity.
  - destruct (execute (extractor := Demo.extractor) (remote := Demo.remote)
                (lit " http://news.example/1") true true true false
                Demo.fresh)
      as [[[e|report] w'] tr] eqn:Hrun; [discriminate|].
    cbn [fst]. intros [= ->].
    pose proof (proj1 (proj1 (report_empty_iff (extractor := Demo.extractor)
                                (remote := Demo.remote) _ _ _ _ _ _ _ _ _ Hrun))
                      eq_refl) as Hblank.
    discriminate Hblank.
Defined.

(** X13 at a concrete input: the page could not be fetched, [download()]
    returned all the same, [parse()] was called and raised, and [nlp()]
    was not called. *)
Lemma link_steps_in_order_witness :
  In (EvParse (lit "http://down.example/a"))
     (snd (process_link (extractor := MoreDemo.newspaper) true true true
             (lit "http://down.example/a") Demo.fresh))
  /\ ~ In (EvNlp (lit "http://down.example/a"))
         (snd (process_link (extractor := MoreDemo.newspaper) true true true
                 (lit "http://down.example/a") Demo.fresh)).
Proof.
  destruct (link_steps_in_order (extractor := MoreDemo.newspaper)
              true true true (lit "http://down.example/a") Demo.fresh
              _ _ _ (run_eta _))
    as (_ & _ & Hparse & Hnlp).
  split.
  - apply Hparse. exists []. reflexivity.
  - intros Hin. apply Hnlp in Hin.
    destruct Hin as (_ & html & a & Hhtml & Ha).
    injection Hhtml as <-. discriminate Ha.
Defined.

End MoreRuns.

Section MoreFeedRuns.
Import RSSFeedParserNode.

(** X15 at a concrete input: a feed whose entry has its alternate
    link. *)
Lemma atom_feed_under_lxml_witness :
  execute (http := MoreDemo.served MoreDemo.linked_atom_text)
          (xml := MoreDemo.lxml_of MoreDemo.linked_atom_root)
          (lit "http://feeds.example/atom") 10 0%nat
  = (lit "Error parsing feed: '@'", 1%nat).
Proof.
  etransitivity.
  - apply (atom_feed_under_lxml
             (http := MoreDemo.served MoreDemo.linked_atom_text)
             (xml := MoreDemo.lxml_of MoreDemo.linked_atom_root)
             (lit "http://feeds.example/atom") 10 0%nat
             (Response 200 (lit "OK") (lit "http://feeds.example/atom")
                MoreDemo.linked_atom_text None)
             1%nat MoreDemo.linked_atom_root).
    + intros entry. reflexivity.
    + reflexivity.
    + reflexivity.
    + reflexivity.
    + vm_compute. discriminate.
    + vm_compute. reflexivity.
  - reflexivity.
Defined.


(** X16 at a concrete input. *)
Lemma feed_without_links_witness :
  links_text (http := Demo.http)
    (xml := MoreDemo.library MoreDemo.empty_rss_root)
    (MoreDemo.ok_response (lit "<rss><channel/></rss>"))
  = inr [].
Proof.
  apply (feed_without_links (http := Demo.http)
           (xml := MoreDemo.library MoreDemo.empty_rss_root)
           _ MoreDemo.empty_rss_root).
  - reflexivity.
  - reflexivity.
  - left. split; reflexivity.
Defined.

End MoreFeedRuns.

(** ** The layout of the report in the concrete world *)
Section LayoutRuns.
Import ArticleContentExtractorNode.

(** Against C1 as written: the tokenizer is not found, [nlp()] raises
    nltk's [LookupError], whose text has several lines, and the block of
    the link is not one line before the separator. *)
Lemma error_block_may_span_lines : ~ Layout.error_block_one_line.
Proof.
  intros H.
  pose proof (H nat MoreDemo.newspaper false true false
                (lit "http://news.example/1") Demo.fresh) as H'.
  destruct (process_link (extractor := MoreDemo.newspaper) false true false
              (lit "http://news.example/1") Demo.fresh)
    as [[[e|content] w'] tr] eqn:Hrun; [|vm_compute in Hrun; discriminate Hrun].
  destruct (H' e w' tr eq_refl) as (line & Hline & Heq).
  vm_compute in Hrun. injection Hrun as <- _ _.
  rewrite error_block_text in Heq. unfold Layout.error_text in Heq.
  rewrite !app_assoc in Heq.
  change (?x ++ 10 :: Spec.dashes ++ [10])
    with (x ++ (10 :: Spec.dashes ++ [10])) in Heq.
  apply app_inv_tail in Heq. subst line.
  vm_compute in Hline. discriminate Hline.
Qed.

(** C10 at concrete inputs: two links, the first of which cannot be
    fetched, and a blank input. *)
Lemma report_layout_witness :
  (exists body1 c rest2,
     fst (fst (execute (extractor := Demo.extractor) (remote := Demo.remote)
                 (lit "http://down.example/a"
                  ++ 10 :: lit " http://news.example/b ")
                 true false false false Demo.cached))
     = inr (body1 ++ 10 :: Spec.dashes ++ [10; 10] ++ c :: rest2)
     /\ isspace c = false)
  /\ fst (fst (execute (extractor := Demo.extractor) (remote := Demo.remote)
                 (lit "  " ++ 10 :: lit " ") true false false false
                 Demo.cached))
     = inr [].
Proof.
  split.
  - destruct (report_layout (extractor := Demo.extractor)
                (remote := Demo.remote)
                (lit "http://down.example/a"
                 ++ 10 :: lit " http://news.example/b ")
                true false false false Demo.cached)
      as (raw & blocks & w' & tr & Hraw & Hnl & Hrun & Hlen & _ & Hseam & _).
    rewrite (lines_unique _ _ Hraw Hnl) in Hlen.
    match type of Hlen with
    | _ = ?n => assert (Hn : n = 2%nat) by (vm_compute; reflexivity);
                rewrite Hn in Hlen
    end.
    destruct blocks as [|b1 [|b2 [|b3 blocks]]]; try discriminate Hlen.
    destruct (Hseam [] b1 b2 [] eq_refl)
      as (body1 & c & rest2 & _ & _ & Hc & Htext).
    exists body1, c, rest2. split; [|exact Hc].
    rewrite Hrun. cbn [fst]. f_equal. rewrite Htext.
    cbn [flat_map app]. rewrite app_nil_r. reflexivity.
  - destruct (report_layout (extractor := Demo.extractor)
                (remote := Demo.remote)
                (lit "  " ++ 10 :: lit " ") true false false false
                Demo.cached)
      as (raw & blocks & w' & tr & _ & _ & Hrun & _ & _ & _ & Hblank).
    rewrite Hrun. cbn [fst]. f_equal. apply Hblank. reflexivity.
Defined.

End LayoutRuns.
